(** * Scholarship response parser: a shallow embedding of [server.js] and of
    its earlier, simpler variant, with the properties of the parsing pipeline.

    The pipeline is text processing over JavaScript strings and regular
    expressions.  Strings are sequences of UTF-16 code units; regular
    expressions are a small syntax tree interpreted by a backtracking matcher
    that follows the ECMAScript pattern semantics (continuation passing,
    greedy quantifiers, leftmost match). *)

From Stdlib Require Import List NArith Arith Bool Lia String Ascii.
Import ListNotations.

Set Implicit Arguments.

(** ** JavaScript strings *)

Module JSString.

(** A string is the list of its UTF-16 code units; [length] is [List.length],
    as [String.prototype.length] counts code units. *)
Definition code_unit := N.
Definition jsstring := list code_unit.

Definition cu (a : ascii) : code_unit := N_of_ascii a.
Arguments cu a%_char.

Fixpoint bytes_of (s : string) : list N :=
  match s with
  | EmptyString => []
  | String a t => N_of_ascii a :: bytes_of t
  end.

(** Source literals are written as they are in the JavaScript files; the
    bytes of the UTF-8 text are decoded to code units (one to three byte
    sequences, which covers the rupee sign; four byte sequences give a
    surrogate pair). *)
Fixpoint utf16_of_utf8 (l : list N) : jsstring :=
  match l with
  | [] => []
  | b :: t =>
    if (b <? 128)%N then b :: utf16_of_utf8 t
    else if (b <? 224)%N then
      match t with
      | c1 :: t1 => ((b - 192) * 64 + (c1 - 128))%N :: utf16_of_utf8 t1
      | [] => [b]
      end
    else if (b <? 240)%N then
      match t with
      | c1 :: c2 :: t2 =>
        ((b - 224) * 4096 + (c1 - 128) * 64 + (c2 - 128))%N :: utf16_of_utf8 t2
      | _ => [b]
      end
    else
      match t with
      | c1 :: c2 :: c3 :: t3 =>
        let cp := ((b - 240) * 262144 + (c1 - 128) * 4096
                   + (c2 - 128) * 64 + (c3 - 128))%N in
        let v := (cp - 65536)%N in
        (55296 + v / 1024)%N :: (56320 + v mod 1024)%N :: utf16_of_utf8 t3
      | _ => [b]
      end
  end.

Definition lit (s : string) : jsstring := utf16_of_utf8 (bytes_of s).
Arguments lit s%_string.

Fixpoint eqb (a b : jsstring) : bool :=
  match a, b with
  | [], [] => true
  | x :: a', y :: b' => (x =? y)%N && eqb a' b'
  | _, _ => false
  end.

(** [s.substring(a, b)] for [a <= b]. *)
Definition substring (s : jsstring) (a b : nat) : jsstring :=
  firstn (b - a) (skipn a s).

(** White space and line terminators, the set shared by [trim] and [\s]. *)
Definition is_line_terminator (c : code_unit) : bool :=
  ((c =? 10) || (c =? 13) || (c =? 8232) || (c =? 8233))%N.

Definition is_space (c : code_unit) : bool :=
  (((9 <=? c) && (c <=? 13)) || (c =? 32) || (c =? 160) || (c =? 5760)
   || ((8192 <=? c) && (c <=? 8202)) || (c =? 8232) || (c =? 8233)
   || (c =? 8239) || (c =? 8287) || (c =? 12288) || (c =? 65279))%N.

Fixpoint trimStart (s : jsstring) : jsstring :=
  match s with
  | c :: t => if is_space c then trimStart t else s
  | [] => []
  end.

Definition trimEnd (s : jsstring) : jsstring := rev (trimStart (rev s)).

Definition trim (s : jsstring) : jsstring := trimEnd (trimStart s).

Fixpoint startsWith (s p : jsstring) : bool :=
  match p, s with
  | [], _ => true
  | x :: p', y :: s' => (x =? y)%N && startsWith s' p'
  | _ :: _, [] => false
  end.

Fixpoint includes (s sub : jsstring) : bool :=
  startsWith s sub ||
  match s with
  | [] => false
  | _ :: t => includes t sub
  end.

Definition is_upper (c : code_unit) : bool := ((65 <=? c) && (c <=? 90))%N.
Definition is_lower (c : code_unit) : bool := ((97 <=? c) && (c <=? 122))%N.

Definition lower_cu (c : code_unit) : code_unit :=
  if is_upper c then (c + 32)%N else c.
Definition upper_cu (c : code_unit) : code_unit :=
  if is_lower c then (c - 32)%N else c.

(** [toLowerCase] on the Basic Latin letters.  The program only ever searches
    the lowered text for fixed phrases made of the letters a-z and space, none
    of which contains a [k] or an [i] that ends the phrase, the only letters a
    code unit outside Basic Latin can lower to (Kelvin sign, dotted capital
    I); for those searches this agrees with the full Unicode mapping. *)
Definition toLowerCase (s : jsstring) : jsstring := map lower_cu s.

(** [a.join(sep)] on an array of strings. *)
Fixpoint join (sep : jsstring) (l : list jsstring) : jsstring :=
  match l with
  | [] => []
  | [x] => x
  | x :: t => x ++ sep ++ join sep t
  end.

End JSString.
Export JSString.

(** ** Regular expressions *)

Module RegExp.

Inductive class_item :=
| CChar (c : code_unit)
| CRange (lo hi : code_unit)
| CDigit
| CSpace.

Inductive regex :=
| Empty
| Chr (c : code_unit)
| Dot
| Class (negated : bool) (items : list class_item)
| Seq (r1 r2 : regex)
| Alt (r1 r2 : regex)
| Repeat (r : regex) (min : nat) (max : option nat)
| Group (n : nat) (r : regex)
| Lookahead (r : regex)
| LineStart
| WordBoundary.

Record flags := { ignoreCase : bool; multiline : bool }.

Definition no_flags := {| ignoreCase := false; multiline := false |}.
Definition flag_i := {| ignoreCase := true; multiline := false |}.
Definition flag_m := {| ignoreCase := false; multiline := true |}.

(** The matcher state: the end index reached, the code unit before it, the
    input left, and the captures recorded so far as index pairs. *)
Record mstate := {
  pos : nat;
  prev : option code_unit;
  rest : jsstring;
  caps : list (nat * (nat * nat))
}.

Definition advance (st : mstate) (c : code_unit) (t : jsstring) : mstate :=
  {| pos := S (pos st); prev := Some c; rest := t; caps := caps st |}.

Definition set_cap (n : nat) (a b : nat) (st : mstate) : mstate :=
  {| pos := pos st; prev := prev st; rest := rest st;
     caps := (n, (a, b)) :: caps st |}.

Definition with_caps (st : mstate) (c : list (nat * (nat * nat))) : mstate :=
  {| pos := pos st; prev := prev st; rest := rest st; caps := c |}.

Fixpoint get_cap (n : nat) (c : list (nat * (nat * nat))) : option (nat * nat) :=
  match c with
  | [] => None
  | (m, ab) :: t => if Nat.eqb m n then Some ab else get_cap n t
  end.

Fixpoint groups_of (r : regex) : list nat :=
  match r with
  | Seq a b | Alt a b => groups_of a ++ groups_of b
  | Repeat a _ _ | Lookahead a => groups_of a
  | Group n a => n :: groups_of a
  | _ => []
  end.

Definition clear_caps (gs : list nat) (st : mstate) : mstate :=
  match gs with
  | [] => st
  | _ => with_caps st
           (filter (fun e => negb (existsb (Nat.eqb (fst e)) gs)) (caps st))
  end.

Definition item_has (it : class_item) (c : code_unit) : bool :=
  match it with
  | CChar a => (a =? c)%N
  | CRange lo hi => ((lo <=? c) && (c <=? hi))%N
  | CDigit => ((48 <=? c) && (c <=? 57))%N
  | CSpace => is_space c
  end.

Definition is_word (c : option code_unit) : bool :=
  match c with
  | Some c => is_upper c || is_lower c || ((48 <=? c) && (c <=? 57))%N
              || (c =? 95)%N
  | None => false
  end.

Section Matcher.

Variable fl : flags.

(** Canonicalize: with flag [i] a code unit is compared through its upper
    case; a code unit outside Basic Latin never canonicalizes into it, and
    the patterns of this program hold Basic Latin letters only. *)
Definition canon (c : code_unit) : code_unit :=
  if ignoreCase fl then upper_cu c else c.

(** A class has [c] when one of its members canonicalizes as [c] does. *)
Definition class_has (items : list class_item) (c : code_unit) : bool :=
  existsb (fun it => item_has it c) items
  || (ignoreCase fl
      && existsb (fun it => item_has it (upper_cu c) || item_has it (lower_cu c))
                 items).

Definition at_line_start (st : mstate) : bool :=
  match prev st with
  | None => true
  | Some c => multiline fl && is_line_terminator c
  end.

Definition at_word_boundary (st : mstate) : bool :=
  xorb (is_word (prev st)) (is_word (hd_error (rest st))).

Definition step_if (ok : code_unit -> bool) (k : mstate -> option mstate)
  (st : mstate) : option mstate :=
  match rest st with
  | c :: t => if ok c then k (advance st c t) else None
  | [] => None
  end.

(** The greedy part of a quantifier: up to [n] further iterations, each of
    which has to consume input (an empty iteration is a failure), then the
    continuation. *)
Fixpoint repeat_greedy (m : (mstate -> option mstate) -> mstate -> option mstate)
  (k : mstate -> option mstate) (n : nat) (st : mstate) : option mstate :=
  match n with
  | 0 => k st
  | S n' =>
    match m (fun st' => if Nat.eqb (pos st') (pos st) then None
                        else repeat_greedy m k n' st') st with
    | Some r => Some r
    | None => k st
    end
  end.

(** The [min] compulsory iterations of a quantifier, then the greedy part.
    An unbounded quantifier is bounded by the input left: every greedy
    iteration consumes at least one code unit. *)
Fixpoint repeat_min (m : (mstate -> option mstate) -> mstate -> option mstate)
  (max : option nat) (k : mstate -> option mstate) (n : nat) (st : mstate)
  : option mstate :=
  match n with
  | 0 =>
    repeat_greedy m k
      (match max with Some b => b | None => List.length (rest st) end) st
  | S n' => m (repeat_min m max k n') st
  end.

Fixpoint rmatch (r : regex) (k : mstate -> option mstate) (st : mstate)
  {struct r} : option mstate :=
  match r with
  | Empty => k st
  | Chr c => step_if (fun x => (canon x =? canon c)%N) k st
  | Dot => step_if (fun x => negb (is_line_terminator x)) k st
  | Class neg items => step_if (fun x => xorb neg (class_has items x)) k st
  | Seq a b => rmatch a (rmatch b k) st
  | Alt a b =>
    match rmatch a k st with
    | Some res => Some res
    | None => rmatch b k st
    end
  | Repeat a mn mx =>
    repeat_min (fun k' st' => rmatch a k' (clear_caps (groups_of a) st'))
               (match mx with Some b => Some (b - mn) | None => None end)
               k mn st
  | Group n a => rmatch a (fun st' => k (set_cap n (pos st) (pos st') st')) st
  | Lookahead a =>
    match rmatch a Some st with
    | Some st' => k (with_caps st (caps st'))
    | None => None
    end
  | LineStart => if at_line_start st then k st else None
  | WordBoundary => if at_word_boundary st then k st else None
  end.

(** The match that starts at the current position, if there is one. *)
Definition match_here (r : regex) (i : nat) (p : option code_unit)
  (s : jsstring) : option mstate :=
  rmatch r Some {| pos := i; prev := p; rest := s; caps := [] |}.

(** The leftmost match at or after index [i], with its start index. *)
Fixpoint search (r : regex) (i : nat) (p : option code_unit) (s : jsstring)
  : option (nat * mstate) :=
  match match_here r i p s with
  | Some st => Some (i, st)
  | None =>
    match s with
    | [] => None
    | c :: t => search r (S i) (Some c) t
    end
  end.

End Matcher.

(** A regular expression literal: flags and pattern. *)
Record regexp := { re_flags : flags; re_pattern : regex }.

(** The result of [exec]: where the match starts and ends, and its groups. *)
Record match_result := {
  m_input : jsstring;
  m_index : nat;
  m_end : nat;
  m_caps : list (nat * (nat * nat))
}.

Definition exec (re : regexp) (s : jsstring) : option match_result :=
  match search (re_flags re) (re_pattern re) 0 None s with
  | Some (i, st) =>
    Some {| m_input := s; m_index := i; m_end := pos st; m_caps := caps st |}
  | None => None
  end.

(** [m[0]], always a string. *)
Definition m0 (m : match_result) : jsstring :=
  substring (m_input m) (m_index m) (m_end m).

(** [m[n]] for a group: [None] is [undefined], the group took no part. *)
Definition mgroup (n : nat) (m : match_result) : option jsstring :=
  match get_cap n (m_caps m) with
  | Some (a, b) => Some (substring (m_input m) a b)
  | None => None
  end.

(** [s.replace(re, '')] for a pattern without flag [g]: the first match is
    cut out. *)
Definition replace_empty (re : regexp) (s : jsstring) : jsstring :=
  match exec re s with
  | Some m => firstn (m_index m) s ++ skipn (m_end m) s
  | None => s
  end.

Section Split.

Variable re : regexp.
Variable s : jsstring.

(** [s.split(re)] for a pattern without groups, as RegExp.prototype[@@split]
    runs it: [p] is where the current piece starts, [q] the index tried;
    a match at [q] that ends at [e <> p] closes the piece [s[p..q)] and the
    next piece starts at [e]; the indices up to [e] are passed over
    ([skip]); the last piece runs to the end of the string. *)
Fixpoint split_from (p q : nat) (pv : option code_unit) (rs : jsstring)
  (skip : nat) : list jsstring :=
  match rs with
  | [] => [substring s p (List.length s)]
  | c :: t =>
    match skip with
    | S skip' => split_from p (S q) (Some c) t skip'
    | 0 =>
      match match_here (re_flags re) (re_pattern re) q pv rs with
      | None => split_from p (S q) (Some c) t 0
      | Some st =>
        let e := Nat.min (pos st) (List.length s) in
        if Nat.eqb e p then split_from p (S q) (Some c) t 0
        else substring s p q :: split_from e (S q) (Some c) t (e - S q)
      end
    end
  end.

Definition split : list jsstring :=
  match s with
  | [] =>
    match match_here (re_flags re) (re_pattern re) 0 None [] with
    | Some _ => []
    | None => [[]]
    end
  | _ => split_from 0 0 None s 0
  end.

End Split.

(** Pattern notation helpers. *)
Fixpoint seq (l : list regex) : regex :=
  match l with
  | [] => Empty
  | [r] => r
  | r :: t => Seq r (seq t)
  end.

Fixpoint alt (l : list regex) : regex :=
  match l with
  | [] => Class false []
  | [r] => r
  | r :: t => Alt r (alt t)
  end.

Definition str (s : string) : regex := seq (map Chr (lit s)).
Arguments str s%_string.
Definition star (r : regex) : regex := Repeat r 0 None.
Definition plus (r : regex) : regex := Repeat r 1 None.
Definition opt (r : regex) : regex := Repeat r 0 (Some 1).
Definition rep (r : regex) (a b : nat) : regex := Repeat r a (Some b).
Definition digit : regex := Class false [CDigit].
Definition space : regex := Class false [CSpace].
Definition one_of (s : string) : regex := Class false (map CChar (lit s)).
Arguments one_of s%_string.

End RegExp.
Export RegExp.

(** ** Values, exceptions and the [scholarships] array *)

Module Runtime.

(** What the caller may hand over as the completion text: it only checks the
    content for truthiness, so any JSON scalar can arrive, not only a
    string. *)
Inductive value :=
| VUndefined
| VNull
| VBoolean (b : bool)
| VNumber (n : N)
| VString (s : jsstring).

Inductive error :=
| TypeError (msg : string).

Inductive outcome (A : Type) :=
| Return (a : A)
| Throw (e : error).
Arguments Return {A} a.
Arguments Throw {A} e.

Record Scholarship := {
  name : jsstring;
  amount : jsstring;
  eligibility : jsstring;
  deadline : jsstring;
  description : jsstring;
  link : jsstring
}.

(** Statements of a [try] block: they run on the [scholarships] array, which
    is declared outside the block and so keeps what was pushed before a
    throw. *)
Definition M (A : Type) : Type :=
  list Scholarship -> outcome A * list Scholarship.

Definition ret {A} (a : A) : M A := fun arr => (Return a, arr).

Definition bind {A B} (c : M A) (f : A -> M B) : M B :=
  fun arr =>
    match c arr with
    | (Return a, arr') => f a arr'
    | (Throw e, arr') => (Throw e, arr')
    end.

Definition lift {A} (o : outcome A) : M A := fun arr => (o, arr).

Definition push (l : list Scholarship) : M unit :=
  fun arr => (Return tt, arr ++ l).

Definition array_length : M nat := fun arr => (Return (List.length arr), arr).

(** [try { body } catch (error) { console.error(...) }] followed by the
    statements after it, which only read the array. *)
Definition try_catch_then {A} (body : M unit) (after : list Scholarship -> A) : A :=
  after (snd (body [])).

(** [arr.slice(0, n)]. *)
Definition slice0 {A} (n : nat) (arr : list A) : list A := firstn n arr.

(** [for (const x of l) { ... return r ... } return d]: the body gives
    [Some r] when it returns from the function and [None] when it goes on to
    the next element. *)
Fixpoint for_of_return {A R} (l : list A) (body : A -> option R) (d : R) : R :=
  match l with
  | [] => d
  | x :: t =>
    match body x with
    | Some r => r
    | None => for_of_return t body d
    end
  end.

(** [text.split(re)] as a method call on a value: only strings have it. *)
Definition call_split (v : value) (re : regexp) : outcome (list jsstring) :=
  match v with
  | VString s => Return (split re s)
  | _ => Throw (TypeError "split is not a function")
  end.

(** [m[1].trim()] where [m[1]] may be [undefined]. *)
Definition call_trim (g : option jsstring) : outcome jsstring :=
  match g with
  | Some s => Return (trim s)
  | None => Throw (TypeError "Cannot read properties of undefined")
  end.

End Runtime.
Export Runtime.

Declare Scope js_scope.
Delimit Scope js_scope with js.
Notation "x <- c ;; k" := (bind c (fun x => k))
  (at level 61, c at next level, right associativity) : js_scope.
Notation "c ;;; k" := (bind c (fun _ => k))
  (at level 61, right associativity) : js_scope.

(** Pieces shared by the patterns of both variants. *)
Module Patterns.

Definition nl : code_unit := 10%N.
Definition not_dot_nl : regex := Class true [CChar (cu "."); CChar nl].
Definition upper : regex := Class false [CRange (cu "A") (cu "Z")].
Definition name_char : regex :=
  Class false [CRange (cu "A") (cu "Z"); CRange (cu "a") (cu "z"); CSpace;
               CChar (cu "&"); CChar (cu "-")].
Definition amount_char : regex :=
  Class false [CDigit; CChar (cu ","); CChar (cu "."); CSpace].
Definition colon_space : regex := Class false [CChar (cu ":"); CSpace].
Definition not_space : regex := Class true [CSpace].
Definition not_space_paren : regex := Class true [CSpace; CChar (cu ")")].
Definition rupee : regex := Chr 8377%N.

(** [[Ss]cholarship] and the like. *)
Definition either (a b : ascii) (tl : string) : regex :=
  Seq (Class false [CChar (cu a); CChar (cu b)]) (str tl).
Arguments either (a b)%_char tl%_string.

Definition months : regex :=
  alt (map str ["January"; "February"; "March"; "April"; "May"; "June";
                "July"; "August"; "September"; "October"; "November";
                "December"]%string).

(** [/(https?:\/\/[^\s)]+)/] *)
Definition bare_url : regexp :=
  {| re_flags := no_flags;
     re_pattern :=
       Group 1 (seq [str "http"; opt (Chr (cu "s")); str "://";
                     plus not_space_paren]) |}.

End Patterns.
Import Patterns.

(** Truthiness of a string, and [a || b] on a possibly undefined group. *)
Definition truthy (s : jsstring) : bool :=
  match s with
  | [] => false
  | _ :: _ => true
  end.

Definition or_else (g : option jsstring) (d : jsstring) : jsstring :=
  match g with
  | Some s => if truthy s then s else d
  | None => d
  end.

(** ** server.js *)

Module Server.

(** The five keyword alternatives of the name patterns, with and without
    the sixth, [[Yy]ojana]. *)
Definition kinds5 : list regex :=
  [either "S" "s" "cholarship"; either "G" "g" "rant";
   either "F" "f" "ellowship"; either "A" "a" "ward"; either "S" "s" "cheme"].
Definition kinds6 : list regex := kinds5 ++ [either "Y" "y" "ojana"].

(** [/(?=\d+\.|\n##|\*\*[A-Z].*[Ss]cholarship|\n[A-Z].*[Ss]cholarship|\n- [A-Z])/] *)
Definition boundary : regex :=
  alt [seq [plus digit; Chr (cu ".")];
       seq [Chr nl; str "##"];
       seq [str "**"; upper; star Dot; either "S" "s" "cholarship"];
       seq [Chr nl; upper; star Dot; either "S" "s" "cholarship"];
       seq [Chr nl; str "- "; upper]].

Definition splitter : regexp :=
  {| re_flags := no_flags; re_pattern := Lookahead boundary |}.

Definition name_patterns : list regexp :=
  [ {| re_flags := flag_i;
       re_pattern :=
         seq [alt [seq [plus digit; Chr (cu ".")]; str "**"; str "##"];
              star space;
              Group 1 (seq [plus not_dot_nl; alt kinds6])] |};
    {| re_flags := no_flags;
       re_pattern := Group 1 (seq [upper; rep name_char 8 60; alt kinds6]) |};
    {| re_flags := flag_m;
       re_pattern :=
         seq [LineStart;
              Group 1 (seq [upper; rep not_dot_nl 10 100; alt kinds5])] |} ].

(** [/^(The |A )/i] *)
Definition article : regexp :=
  {| re_flags := flag_i;
     re_pattern := seq [LineStart; Group 1 (alt [str "The "; str "A "])] |}.

Definition extractScholarshipName (text : jsstring) : jsstring :=
  for_of_return name_patterns
    (fun pattern =>
       match exec pattern text with
       | Some m =>
         match mgroup 1 m with
         | Some g =>
           if truthy g then
             let name := trim g in
             let name := replace_empty article name in
             if (10 <? List.length name) && (List.length name <? 150)
             then Some name else None
           else None
         | None => None
         end
       | None => None
       end)
    (lit "Educational Opportunity").

Definition unit_words (l : list string) : regex :=
  opt (seq [star space; alt (map str l)]).

Definition amount_patterns : list regexp :=
  map (fun p => {| re_flags := flag_i; re_pattern := p |})
    [ seq [rupee; plus amount_char;
           unit_words ["lakh"; "crore"; "per year"; "per month"; "annually";
                       "monthly"]%string];
      seq [str "Rs"; opt (Chr (cu ".")); star space; plus amount_char;
           unit_words ["lakh"; "crore"; "per year"; "per month"; "annually"]%string];
      seq [str "INR"; star space; plus amount_char];
      seq [str "up to"; star space; opt rupee; plus amount_char];
      seq [str "amount"; star colon_space; opt rupee; plus amount_char;
           unit_words ["lakh"; "crore"; "per year"]%string] ].

(** The patterns carry flag [g]: [text.match] gives the array of all
    matches, of which only the first, the leftmost one, is read. *)
Definition extractAmount (text : jsstring) : jsstring :=
  for_of_return amount_patterns
    (fun pattern =>
       match exec pattern text with
       | Some m => Some (trim (m0 m))
       | None => None
       end)
    (lit "Amount varies").

Definition labelled (label : regex) (lo hi : nat) : regex :=
  seq [label; star colon_space; Group 1 (rep not_dot_nl lo hi)].

Definition eligibility_patterns : list regexp :=
  map (fun p => {| re_flags := flag_i; re_pattern := p |})
    [ labelled (str "eligibility") 20 150;
      labelled (str "eligible") 20 150;
      labelled (str "criteria") 20 150;
      labelled (seq [str "requirement"; opt (Chr (cu "s"))]) 20 150;
      seq [str "for"; plus space;
           Group 1 (seq [rep not_dot_nl 25 120;
                         alt [str "students"; str "candidates"]])] ].

Definition extractEligibility (text : jsstring) : jsstring :=
  for_of_return eligibility_patterns
    (fun pattern =>
       match exec pattern text with
       | Some m =>
         match mgroup 1 m with
         | Some g =>
           if truthy g then
             let eligibility := trim g in
             if 20 <? List.length eligibility then Some eligibility else None
           else None
         | None => None
         end
       | None => None
       end)
    (lit "Check official website for detailed eligibility criteria").

Definition year_2025_6 : regex :=
  seq [str "202"; Class false [CRange (cu "5") (cu "6")]].
Definition slash_dash : regex := Class false [CChar (cu "/"); CChar (cu "-")].

Definition deadline_patterns : list regexp :=
  [ {| re_flags := flag_i; re_pattern := labelled (str "deadline") 10 60 |};
    {| re_flags := flag_i;
       re_pattern :=
         seq [str "due"; star colon_space;
              Group 1 (seq [str "by"; plus space; rep not_dot_nl 8 50])] |};
    {| re_flags := flag_i; re_pattern := labelled (str "apply by") 10 50 |};
    {| re_flags := flag_i; re_pattern := labelled (str "last date") 10 50 |};
    {| re_flags := no_flags;
       re_pattern :=
         seq [WordBoundary; months; plus space; rep digit 1 2;
              opt (alt [str "st"; str "nd"; str "rd"; str "th"]);
              opt (Chr (cu ",")); star space; year_2025_6; WordBoundary] |};
    {| re_flags := no_flags;
       re_pattern :=
         seq [rep digit 1 2; slash_dash; rep digit 1 2; slash_dash;
              year_2025_6] |};
    {| re_flags := flag_i;
       re_pattern :=
         seq [year_2025_6; star space; alt [str "deadline"; str "due"]] |} ].

Definition extractDeadline (text : jsstring) : jsstring :=
  for_of_return deadline_patterns
    (fun pattern =>
       match exec pattern text with
       | Some m => Some (trim (or_else (mgroup 1 m) (m0 m)))
       | None => None
       end)
    (lit "Check official website for application deadlines").

(** [/[.!?]+/] *)
Definition sentence_end : regexp :=
  {| re_flags := no_flags; re_pattern := plus (one_of ".!?") |}.

Definition extractDescription (text : jsstring) : jsstring :=
  let sentences := split sentence_end text in
  let relevantSentences :=
    slice0 2
      (filter
         (fun sentence =>
            (40 <? List.length sentence) && (List.length sentence <? 200)
            && negb (includes (toLowerCase sentence) (lit "scholarship name"))
            && negb (includes (toLowerCase sentence) (lit "eligibility criteria"))
            && negb (includes (toLowerCase sentence) (lit "application deadline")))
         sentences) in
  if 0 <? List.length relevantSentences
  then trim (join (lit ". ") relevantSentences) ++ lit "."
  else lit "Financial assistance program for eligible students to pursue higher education.".

Definition www_after (labels : list string) : regexp :=
  {| re_flags := flag_i;
     re_pattern :=
       seq [alt (map str labels); star colon_space;
            Group 1 (seq [str "www"; Chr (cu "."); plus not_space])] |}.

Definition link_patterns : list regexp :=
  [ bare_url; www_after ["website"; "portal"; "apply"]%string;
    www_after ["visit"; "check"]%string ].

Section WithURL.

(** [new URL(link)] is the platform's URL parser: [URL_parses link] says that
    it builds a URL rather than throw. *)
Variable URL_parses : jsstring -> bool.

(** [null] is [None]. *)
Definition extractLink (text : jsstring) : option jsstring :=
  for_of_return link_patterns
    (fun pattern =>
       match exec pattern text with
       | Some m =>
         let link := or_else (mgroup 1 m) (m0 m) in
         let link :=
           if negb (startsWith link (lit "http")) then lit "https://" ++ link
           else link in
         if URL_parses link then Some (Some link) else None
       | None => None
       end)
    None.

Definition extractScholarshipInfo (text : jsstring) : Scholarship :=
  {| name := extractScholarshipName text;
     amount := extractAmount text;
     eligibility := extractEligibility text;
     deadline := extractDeadline text;
     description := extractDescription text;
     link := or_else (extractLink text) (lit "https://scholarships.gov.in") |}.

End WithURL.

Definition keywords : list jsstring :=
  map lit ["scholarship"; "grant"; "fellowship"; "award"; "scheme"]%string.

(** The condition of the [if] that guards [scholarships.push]. *)
Definition accepts (scholarship : Scholarship) : bool :=
  truthy (name scholarship)
  && (8 <? List.length (name scholarship))
  && (List.length (name scholarship) <? 200)
  && negb (includes (toLowerCase (name scholarship)) (lit "here are"))
  && negb (includes (toLowerCase (name scholarship)) (lit "following"))
  && (includes (toLowerCase (name scholarship)) (lit "scholarship")
      || includes (toLowerCase (name scholarship)) (lit "grant")
      || includes (toLowerCase (name scholarship)) (lit "fellowship")
      || includes (toLowerCase (name scholarship)) (lit "award")
      || includes (toLowerCase (name scholarship)) (lit "scheme")).

Definition fallback : list Scholarship :=
  [ {| name := lit "National Scholarship Portal (NSP)";
       amount := lit "₹12,000 - ₹2,00,000 per year";
       eligibility := lit "Various categories including merit-based, need-based, SC/ST, OBC, and minority students";
       deadline := lit "Multiple deadlines (Usually October to December 2025)";
       description := lit "Government of India's centralized platform offering various scholarship schemes for students across different categories and educational levels.";
       link := lit "https://scholarships.gov.in" |};
    {| name := lit "Post Matric Scholarship Scheme for SC Students";
       amount := lit "₹230 - ₹1,200 per month + academic fees";
       eligibility := lit "SC students pursuing post-matriculation studies with family income below ₹2.5 lakh";
       deadline := lit "November 30, 2025";
       description := lit "Central government scheme providing financial assistance to SC students for higher education.";
       link := lit "https://scholarships.gov.in" |};
    {| name := lit "Merit cum Means Scholarship for Professional Courses";
       amount := lit "₹20,000 per year";
       eligibility := lit "Students with family income below ₹2.5 lakh and good academic record (80% or above)";
       deadline := lit "December 31, 2025";
       description := lit "UGC scheme for economically weaker students pursuing professional courses.";
       link := lit "https://scholarships.gov.in" |};
    {| name := lit "Inspire Scholarship for Higher Education";
       amount := lit "₹80,000 per year";
       eligibility := lit "Top 1% students in Class XII board examination pursuing B.Sc./B.S./B.Tech./Integrated M.Sc.";
       deadline := lit "July 31, 2025";
       description := lit "DST scheme to attract talented students to pursue careers in science and technology.";
       link := lit "https://online-inspire.gov.in" |} ].

Section WithURL.

Variable URL_parses : jsstring -> bool.

Open Scope js_scope.

(** One turn of the [for] loop, after its condition. *)
Definition visit (s : jsstring) : M unit :=
  let section := trim s in
  if List.length section <? 100 then ret tt
  else
    let scholarship := extractScholarshipInfo URL_parses section in
    if accepts scholarship then push [scholarship] else ret tt.

(** [for (let i = 0; i < sections.length && scholarships.length < 10; i++)] *)
Fixpoint for_sections (sections : list jsstring) : M unit :=
  match sections with
  | [] => ret tt
  | s :: more =>
    n <- array_length ;;
    if n <? 10 then visit s ;;; for_sections more else ret tt
  end.

Definition try_block (responseText : value) : M unit :=
  sections <- lift (call_split responseText splitter) ;;
  for_sections sections ;;;
  n <- array_length ;;
  if Nat.eqb n 0 then push fallback else ret tt.

Definition parseScholarshipResponse (responseText : value) : list Scholarship :=
  try_catch_then (try_block responseText) (slice0 8).

End WithURL.

End Server.

(** ** The simpler variant (the unnamed source file) *)

Module Simple.

(** [/(?:\d+\.|\n-|\*\*|\n#{1,3})/] *)
Definition splitter : regexp :=
  {| re_flags := no_flags;
     re_pattern :=
       alt [seq [plus digit; Chr (cu ".")];
            seq [Chr nl; Chr (cu "-")];
            str "**";
            seq [Chr nl; rep (Chr (cu "#")) 1 3]] |}.

Definition name_patterns : list regexp :=
  [ {| re_flags := no_flags;
       re_pattern :=
         Group 1 (seq [upper; plus name_char;
                       alt [str "Scholarship"; str "Grant"; str "Fellowship";
                            str "Award"; str "Scheme"; str "Yojana"]]) |};
    {| re_flags := flag_m;
       re_pattern :=
         seq [LineStart;
              Group 1 (seq [upper; plus not_dot_nl;
                            alt [str "Scholarship"; str "Grant";
                                 str "Fellowship"; str "Award"]])] |} ].

(** [if (match) return match[1].trim();] *)
Definition extractName (text : jsstring) : outcome jsstring :=
  for_of_return name_patterns
    (fun pattern =>
       match exec pattern text with
       | Some m => Some (call_trim (mgroup 1 m))
       | None => None
       end)
    (Return (lit "Educational Grant")).

Definition amount_patterns : list regexp :=
  map (fun p => {| re_flags := flag_i; re_pattern := p |})
    [ seq [rupee; plus amount_char;
           opt (seq [star space;
                     alt [str "lakh"; str "crore"; str "per year";
                          str "annually"]])];
      seq [str "Rs"; opt (Chr (cu ".")); star space; plus amount_char];
      seq [str "up to"; star space; opt rupee; plus amount_char] ].

Definition extractAmount (text : jsstring) : jsstring :=
  for_of_return amount_patterns
    (fun pattern =>
       match exec pattern text with
       | Some m => Some (trim (m0 m))
       | None => None
       end)
    (lit "Amount varies").

Definition eligibility_patterns : list regexp :=
  map (fun p => {| re_flags := flag_i; re_pattern := p |})
    [ seq [str "eligibility"; star colon_space; Group 1 (rep not_dot_nl 20 100)];
      seq [str "eligible"; star colon_space; Group 1 (rep not_dot_nl 20 100)];
      seq [str "for"; plus space;
           Group 1 (seq [rep not_dot_nl 20 100; str "students"])] ].

(** [if (match) return match[1].trim();] *)
Definition extractEligibility (text : jsstring) : outcome jsstring :=
  for_of_return eligibility_patterns
    (fun pattern =>
       match exec pattern text with
       | Some m => Some (call_trim (mgroup 1 m))
       | None => None
       end)
    (Return (lit "Check official website")).

Definition deadline_patterns : list regexp :=
  map (fun p => {| re_flags := flag_i; re_pattern := p |})
    [ seq [str "deadline"; star colon_space; Group 1 (rep not_dot_nl 10 50)];
      seq [str "apply by"; star colon_space; Group 1 (rep not_dot_nl 10 50)];
      seq [months; plus space; rep digit 4 4] ].

(** [if (match) return match[1] || match[0];] *)
Definition extractDeadline (text : jsstring) : jsstring :=
  for_of_return deadline_patterns
    (fun pattern =>
       match exec pattern text with
       | Some m => Some (or_else (mgroup 1 m) (m0 m))
       | None => None
       end)
    (lit "Check website").

(** [/[.!?]/] *)
Definition sentence_end : regexp :=
  {| re_flags := no_flags; re_pattern := one_of ".!?" |}.

Definition extractDescription (text : jsstring) : jsstring :=
  let sentences := split sentence_end text in
  let good :=
    slice0 1
      (filter (fun s => (30 <? List.length s) && (List.length s <? 150))
              sentences) in
  match good with
  | g :: _ => trim g ++ lit "."
  | [] => lit "Scholarship opportunity available."
  end.

(** No validation here: the first bare URL, as it stands, or the portal. *)
Definition extractLink (text : jsstring) : jsstring :=
  match exec bare_url text with
  | Some m =>
    match mgroup 1 m with
    | Some g => g
    | None => lit "https://scholarships.gov.in"
    end
  | None => lit "https://scholarships.gov.in"
  end.

(** The condition of the [if] that guards [scholarships.push]. *)
Definition accepts (scholarship : Scholarship) : bool :=
  truthy (name scholarship)
  && (10 <? List.length (name scholarship))
  && (includes (toLowerCase (name scholarship)) (lit "scholarship")
      || includes (toLowerCase (name scholarship)) (lit "grant")
      || includes (toLowerCase (name scholarship)) (lit "award")).

Definition fallback : list Scholarship :=
  [ {| name := lit "National Scholarship Portal";
       amount := lit "₹12,000 - ₹2,00,000 per year";
       eligibility := lit "Various categories - merit and need based";
       deadline := lit "October to December 2025";
       description := lit "Government scholarship platform with multiple schemes for different student categories.";
       link := lit "https://scholarships.gov.in" |};
    {| name := lit "Post Matric Scholarship for SC/ST";
       amount := lit "₹230 - ₹1,200 per month";
       eligibility := lit "SC/ST students in higher education";
       deadline := lit "November 2025";
       description := lit "Central government scholarship for SC/ST students pursuing post-matric courses.";
       link := lit "https://scholarships.gov.in" |};
    {| name := lit "Merit cum Means Scholarship";
       amount := lit "₹20,000 per year";
       eligibility := lit "Family income below ₹2.5 lakh, 80%+ marks";
       deadline := lit "December 2025";
       description := lit "For meritorious students from economically weaker sections.";
       link := lit "https://scholarships.gov.in" |} ].

Open Scope js_scope.

(** The object literal: its fields are evaluated in order, and the two
    extractors that dereference [match[1]] may throw. *)
Definition build (section : jsstring) : outcome Scholarship :=
  match extractName section with
  | Throw e => Throw e
  | Return n =>
    let a := extractAmount section in
    match extractEligibility section with
    | Throw e => Throw e
    | Return el =>
      Return {| name := n; amount := a; eligibility := el;
                deadline := extractDeadline section;
                description := extractDescription section;
                link := extractLink section |}
    end
  end.

(** The body of [for (const section of sections)]. *)
Definition visit (section : jsstring) : M unit :=
  if List.length section <? 50 then ret tt
  else
    scholarship <- lift (build section) ;;
    if accepts scholarship then push [scholarship] else ret tt.

Fixpoint for_sections (sections : list jsstring) : M unit :=
  match sections with
  | [] => ret tt
  | s :: more => visit s ;;; for_sections more
  end.

Definition try_block (text : value) : M unit :=
  sections <- lift (call_split text splitter) ;;
  for_sections sections ;;;
  n <- array_length ;;
  if Nat.eqb n 0 then push fallback else ret tt.

Definition parseScholarships (text : value) : list Scholarship :=
  try_catch_then (try_block text) (slice0 8).

End Simple.

(** ** The properties' vocabulary *)

Module Spec.

(** The five keyword tokens of the data model's invariant. *)
Definition keywords : list jsstring :=
  map lit ["scholarship"; "grant"; "fellowship"; "award"; "scheme"]%string.

Definition bears (kws : list jsstring) (s : jsstring) : Prop :=
  Exists (fun kw => includes (toLowerCase s) kw = true) kws.

Definition bearsb (kws : list jsstring) (s : jsstring) : bool :=
  existsb (includes (toLowerCase s)) kws.

(** The invariant of a surfaced record: a name, with a keyword in it. *)
Definition named (r : Scholarship) : Prop :=
  name r <> [] /\ bears keywords (name r).

Definition is_string (v : value) : bool :=
  match v with
  | VString _ => true
  | _ => false
  end.

(** Whether a [try] block, run on the empty array, ends in a throw. *)
Definition throws (body : M unit) : bool :=
  match fst (body []) with
  | Throw _ => true
  | Return _ => false
  end.

(** *** The segment validator as the specification words it *)

Definition claimed_accepts (min_len : nat) (phrases : bool) (r : Scholarship)
  : bool :=
  truthy (name r)
  && (min_len <=? List.length (name r))
  && (List.length (name r) <=? 200)
  && (negb phrases
      || (negb (includes (toLowerCase (name r)) (lit "here are"))
          && negb (includes (toLowerCase (name r)) (lit "following"))))
  && bearsb keywords (name r).

Definition with_name (n : jsstring) : Scholarship :=
  {| name := n; amount := []; eligibility := []; deadline := [];
     description := []; link := [] |}.

(** *** The name extractor as the specification words it *)

(** A leading "The " or "A ", as written. *)
Definition strip_article (n : jsstring) : jsstring :=
  if startsWith n (lit "The ") then skipn 4 n
  else if startsWith n (lit "A ") then skipn 2 n
  else n.

(** The same whatever the case of the article: what [/^(The |A )/i] cuts. *)
Definition strip_article_ci (n : jsstring) : jsstring :=
  if startsWith (toLowerCase n) (lit "the ") then skipn 4 n
  else if startsWith (toLowerCase n) (lit "a ") then skipn 2 n
  else n.

(** The name captured by the first pattern of the list that matches. *)
Definition first_match (patterns : list regexp) (text : jsstring)
  : option jsstring :=
  for_of_return patterns
    (fun pattern =>
       match exec pattern text with
       | Some m => Some (Some (or_else (mgroup 1 m) []))
       | None => None
       end)
    None.

Definition claimed_name_rich (text : jsstring) : jsstring :=
  match first_match Server.name_patterns text with
  | Some g =>
    let n := strip_article g in
    if (10 <=? List.length n) && (List.length n <=? 150) then n
    else lit "Educational Opportunity"
  | None => lit "Educational Opportunity"
  end.

Definition claimed_name_simple (text : jsstring) : jsstring :=
  match first_match Simple.name_patterns text with
  | Some g => strip_article g
  | None => lit "Educational Grant"
  end.

(** What one pattern of [extractScholarshipName] proposes: the trimmed
    group without its article, when the pattern matches with a name. *)
Definition proposal (pattern : regexp) (text : jsstring) : option jsstring :=
  match exec pattern text with
  | Some m =>
    match mgroup 1 m with
    | Some g => if truthy g then Some (strip_article_ci (trim g)) else None
    | None => None
    end
  | None => None
  end.

Definition in_bounds (n : jsstring) : bool :=
  (10 <? List.length n) && (List.length n <? 150).

(** The proposal, when it is within the bounds: what the pattern makes the
    extractor return. *)
Definition offer (pattern : regexp) (text : jsstring) : option jsstring :=
  match proposal pattern text with
  | Some n => if in_bounds n then Some n else None
  | None => None
  end.

(** *** Accepted candidates, in document order *)

Definition keep (o : option Scholarship) : list Scholarship :=
  match o with
  | Some r => [r]
  | None => []
  end.

Definition rich_candidate (URL_parses : jsstring -> bool) (s : jsstring)
  : option Scholarship :=
  let section := trim s in
  if List.length section <? 100 then None
  else
    let r := Server.extractScholarshipInfo URL_parses section in
    if Server.accepts r then Some r else None.

Definition rich_accepted (URL_parses : jsstring -> bool) (text : jsstring)
  : list Scholarship :=
  flat_map (fun s => keep (rich_candidate URL_parses s))
           (split Server.splitter text).

Definition simple_candidate (section : jsstring) : option Scholarship :=
  if List.length section <? 50 then None
  else
    match Simple.build section with
    | Return r => if Simple.accepts r then Some r else None
    | Throw _ => None
    end.

Definition simple_accepted (text : jsstring) : list Scholarship :=
  flat_map (fun s => keep (simple_candidate s)) (split Simple.splitter text).

(** The collection handed to [slice]: the accepted candidates, or the
    Fallback Catalog in their place when there is none. *)
Definition or_fallback (accepted catalog : list Scholarship)
  : list Scholarship :=
  match accepted with
  | [] => catalog
  | r :: l => r :: l
  end.

(** [a] occurs in [b] as a contiguous run. *)
Definition infix (a b : jsstring) : Prop :=
  exists pre post, b = pre ++ a ++ post.

(** *** Where a marker starts *)

Definition prev_at (s : jsstring) (i : nat) : option code_unit :=
  match i with
  | 0 => None
  | S j => nth_error s j
  end.

(** A boundary marker of [server.js] starts at index [i] of [s]. *)
Definition marker_at (s : jsstring) (i : nat) : bool :=
  match match_here no_flags Server.boundary i (prev_at s i) (skipn i s) with
  | Some _ => true
  | None => false
  end.

(** Every cut between two consecutive segments, the first of which starts
    at index [offset], falls where a marker starts. *)
Fixpoint cuts_at_markers (s : jsstring) (offset : nat) (segs : list jsstring)
  : bool :=
  match segs with
  | [] => true
  | seg :: more =>
    match more with
    | [] => true
    | _ :: _ =>
      marker_at s (offset + List.length seg)
      && cuts_at_markers s (offset + List.length seg) more
    end
  end.

(** *** URL syntax *)

Fixpoint take_until (stop : code_unit -> bool) (s : jsstring) : jsstring :=
  match s with
  | c :: t => if stop c then [] else c :: take_until stop t
  | [] => []
  end.

Fixpoint drop_while (p : code_unit -> bool) (s : jsstring) : jsstring :=
  match s with
  | c :: t => if p c then drop_while p t else s
  | [] => []
  end.

Definition among (set : jsstring) (c : code_unit) : bool :=
  existsb (N.eqb c) set.

Definition after_last_at (a : jsstring) : jsstring :=
  fold_left (fun acc c => if (c =? cu "@")%N then [] else acc ++ [c]) a [].

Definition backslash : code_unit := 92%N.

(** The host and port of an [http://] or [https://] link, as the URL
    standard's parser delimits them: after the slashes, up to the next
    slash, backslash, question mark or hash, and after the last at-sign. *)
Definition http_host (link : jsstring) : option jsstring :=
  let after (p : jsstring) :=
    after_last_at
      (take_until (among (lit "/?#" ++ [backslash]))
         (drop_while (among [cu "/"; backslash]) (skipn (List.length p) link))) in
  if startsWith link (lit "https://") then Some (after (lit "https://"))
  else if startsWith link (lit "http://") then Some (after (lit "http://"))
  else None.

(** A condition [new URL(link)] needs on an http(s) link, from the host
    parser of the URL standard: the host is not empty and holds none of the
    forbidden code points [<], [>], [^] and [|].  Links of other shapes are
    not judged. *)
Definition http_host_ok (link : jsstring) : bool :=
  match http_host link with
  | Some h => truthy h && forallb (fun c => negb (among (lit "<>^|") c)) h
  | None => true
  end.

(** *** Inputs of the scenarios *)

(** The conversational filler of the specification's scenario. *)
Definition filler : jsstring :=
  lit "Thank you for your question. Here is some general advice about funding your education.".

(** One well-formed entry under a heading marker, told apart by a letter. *)
Definition entry (c : code_unit) : jsstring :=
  (nl :: lit "## Alpha ") ++ [c]
  ++ lit " Merit Scholarship helps bright students of every region with fees and books and hostel costs".

(** Twelve well-formed entries. *)
Definition twelve : jsstring := flat_map entry (lit "ABCDEFGHIJKL").

(** A text with a bare link that is no URL. *)
Definition broken_link : jsstring :=
  lit "Thank you for your question, the portal is at https://< for now".

(** A segment in which no extractor finds anything. *)
Definition blank : jsstring := repeat (cu "x") 160.

End Spec.

(** ** What a pattern records *)

Module Captures.

Definition has_cap (n : nat) (st : mstate) : Prop := get_cap n (caps st) <> None.

(** A syntactic check: every match of [r] records group [n]. *)
Fixpoint sets (n : nat) (r : regex) : bool :=
  match r with
  | Group g a => Nat.eqb g n || sets n a
  | Seq a b => (sets n a && negb (existsb (Nat.eqb n) (groups_of b))) || sets n b
  | Alt a b => sets n a && sets n b
  | _ => false
  end.

(** A matcher that hands its continuation a state in which [P] still
    holds. *)
Definition keeps (P : mstate -> Prop)
  (m : (mstate -> option mstate) -> mstate -> option mstate) : Prop :=
  forall k st res, m k st = Some res ->
    exists st', k st' = Some res /\ (P st -> P st').

Definition absent (n : nat) (r : regex) : bool :=
  negb (existsb (Nat.eqb n) (groups_of r)).

End Captures.

(** ** How far a pattern reaches *)

Module Extent.

(** A bound, when there is one. *)
Definition within (w : option nat) (n : nat) : Prop :=
  match w with
  | Some b => n <= b
  | None => True
  end.

(** [st'] is [st] moved forward on the same input, by no more than [w]. *)
Definition ahead (w : option nat) (st st' : mstate) : Prop :=
  exists n, within w n /\ pos st' = pos st + n /\ rest st' = skipn n (rest st).

(** A matcher whose continuation is called at most [w] further on. *)
Definition reaches (w : option nat)
  (m : (mstate -> option mstate) -> mstate -> option mstate) : Prop :=
  forall k st res, m k st = Some res ->
    exists st', k st' = Some res /\ ahead w st st'.

Definition add_bound (a b : option nat) : option nat :=
  match a, b with
  | Some x, Some y => Some (x + y)
  | _, _ => None
  end.

Definition max_bound (a b : option nat) : option nat :=
  match a, b with
  | Some x, Some y => Some (Nat.max x y)
  | _, _ => None
  end.

Definition times_bound (n : nat) (a : option nat) : option nat :=
  match a with
  | Some x => Some (n * x)
  | None => None
  end.

(** The most code units a match of [r] can take, when the pattern bounds
    it. *)
Fixpoint maxw (r : regex) : option nat :=
  match r with
  | Empty | Lookahead _ | LineStart | WordBoundary => Some 0
  | Chr _ | Dot | Class _ _ => Some 1
  | Seq a b => add_bound (maxw a) (maxw b)
  | Alt a b => max_bound (maxw a) (maxw b)
  | Repeat a mn (Some mx) => times_bound (mn + (mx - mn)) (maxw a)
  | Repeat _ _ None => None
  | Group _ a => maxw a
  end.

(** The body of group 1 when the pattern ends with it. *)
Fixpoint tail_group (r : regex) : option regex :=
  match r with
  | Group 1 g => Some g
  | Seq _ b => tail_group b
  | _ => None
  end.

(** The pattern ends with group 1, whose body takes at most [W] code
    units. *)
Definition group_width_le (W : nat) (p : regexp) : bool :=
  match tail_group (re_pattern p) with
  | Some g =>
    match maxw g with
    | Some w => w <=? W
    | None => false
    end
  | None => false
  end.

(** The literal code units a pattern starts with. *)
Fixpoint literal_prefix (r : regex) : jsstring :=
  match r with
  | Chr c => [c]
  | Seq (Chr c) b => c :: literal_prefix b
  | Group _ a => literal_prefix a
  | _ => []
  end.

(** The literal code unit a pattern starts with, when it starts with
    one. *)
Fixpoint first_chr (r : regex) : option code_unit :=
  match r with
  | Chr c => Some c
  | Seq a _ => first_chr a
  | Group _ a => first_chr a
  | _ => None
  end.

(** Neither the code unit nor its capital is white space. *)
Definition visible (c : code_unit) : bool :=
  negb (is_space c) && negb (is_space (upper_cu c)).

Definition starts_visible (p : regexp) : bool :=
  match first_chr (re_pattern p) with
  | Some c => visible c
  | None => false
  end.

End Extent.

(** ** server.js: the query and the request handler *)

Module ServerApp.

(** A template literal that runs over several lines, line by line. *)
Definition unlines (l : list string) : jsstring :=
  join [nl] (map lit l).

(** The argument of [buildEnhancedQuery] as the handler builds it: the two
    required fields trimmed, the others trimmed or [undefined] ([None]). *)
Record Profile := {
  collegeName : jsstring;
  course : jsstring;
  location : option jsstring;
  gpa : option jsstring;
  category : option jsstring;
  budget : option jsstring
}.

(** [if (x)] on a string that may be [undefined]: the text to insert. *)
Definition given (x : option jsstring) : option jsstring :=
  match x with
  | Some s => if truthy s then Some s else None
  | None => None
  end.

(** [if (x) { query += before + x + after }] *)
Definition clause (before : jsstring) (x : option jsstring) (after : jsstring)
  : jsstring :=
  match given x with
  | Some s => before ++ s ++ after
  | None => []
  end.

Definition opening : jsstring :=
  lit "Find current active scholarships and financial aid opportunities for ".

Definition request_block : jsstring :=
  unlines
    [". ";
     "";
     "Please provide:";
     "1. Government scholarships (central and state government schemes)";
     "2. Private foundation and corporate scholarships";
     "3. Institution-specific scholarships and grants";
     "4. International scholarships for Indian students";
     "";
     "For each scholarship, include:";
     "- Exact scholarship name";
     "- Amount/value in Indian Rupees";
     "- Specific eligibility criteria";
     "- Application deadline for 2025-2026 academic year";
     "- Official website or application portal link";
     "";
     "Focus on scholarships with upcoming deadlines and active application processes."]%string.

Definition buildEnhancedQuery (p : Profile) : jsstring :=
  let query := opening ++ course p ++ lit " students in India" in
  let query := query ++ clause (lit " studying at ") (Some (collegeName p)) [] in
  let query := query ++ clause (lit " in ") (location p) (lit " state/region") in
  let query :=
    query ++ clause (lit ". Focus specifically on ") (category p)
                    (lit " scholarships") in
  let query :=
    query ++ clause (lit " with funding amount in range ") (budget p) [] in
  let query :=
    query ++ clause (lit ". Student has academic performance of ") (gpa p) [] in
  query ++ request_block.

(** What the [catch] clause reads of the value thrown: [error.code] and
    [error.response?.status].  A [TypeError] and a [new Error(...)] have
    neither. *)
Record thrown := {
  code : option jsstring;
  response_status : option nat
}.

Definition plain_error : thrown := {| code := None; response_status := None |}.

Inductive result (A : Type) :=
| Ok (a : A)
| Raise (e : thrown).
Arguments Ok {A} a.
Arguments Raise {A} e.

Definition and_then {A B} (r : result A) (f : A -> result B) : result B :=
  match r with
  | Ok a => f a
  | Raise e => Raise e
  end.

(** [!v] *)
Definition falsy (v : value) : bool :=
  match v with
  | VUndefined | VNull => true
  | VBoolean b => negb b
  | VNumber n => (n =? 0)%N
  | VString s => negb (truthy s)
  end.

(** [v.trim()]: only a string has the method. *)
Definition method_trim (v : value) : result jsstring :=
  match v with
  | VString s => Ok (trim s)
  | _ => Raise plain_error
  end.

(** [v?.trim()] *)
Definition optional_trim (v : value) : result (option jsstring) :=
  match v with
  | VUndefined | VNull => Ok None
  | VString s => Ok (Some (trim s))
  | _ => Raise plain_error
  end.

(** The fields read from [req.body]; a field that is not there is
    [undefined].  An array or an object in the body is truthy and has no
    [trim]: it goes the way [VBoolean true] does. *)
Record Body := {
  b_collegeName : value;
  b_course : value;
  b_location : value;
  b_gpa : value;
  b_category : value;
  b_budget : value
}.

(** How [await axios.post(...)] settles: fulfilled with the status of the
    response and with what [data?.choices?.[0]?.message?.content] is in it,
    or rejected with an error. *)
Inductive settled :=
| Fulfilled (status : nat) (content : value)
| Rejected (e : thrown).

(** The reply, by its status code, [success] and [error], and by the
    scholarships with their count; the request fields echoed in it, the
    time stamp and the debug object of development mode are left out. *)
Inductive reply :=
| Success (scholarships : list Scholarship) (total : nat)
| Failure (statusCode : nat) (error : jsstring).

Definition status_of (r : reply) : nat :=
  match r with
  | Success _ _ => 200
  | Failure c _ => c
  end.

(** [!x || x.trim().length === 0] *)
Definition blank (x : value) : result bool :=
  if falsy x then Ok true
  else and_then (method_trim x) (fun t => Ok (Nat.eqb (List.length t) 0)).

Definition code_is (e : thrown) (c : string) : bool :=
  match code e with
  | Some s => JSString.eqb s (lit c)
  | None => false
  end.

Definition response_is (e : thrown) (n : nat) : bool :=
  match response_status e with
  | Some s => Nat.eqb s n
  | None => false
  end.

(** The [catch] clause of the handler. *)
Definition on_error (e : thrown) : reply :=
  if code_is e "ECONNABORTED" || code_is e "ETIMEDOUT" then
    Failure 408 (lit "Search request timed out. Please try again.")
  else if response_is e 401 then
    Failure 500 (lit "API authentication failed. Please contact support.")
  else if response_is e 429 then
    Failure 429 (lit "Too many requests. Please wait and try again.")
  else if response_is e 400 then
    Failure 400 (lit "Invalid request format. Please check your input.")
  else
    Failure 500 (lit "Failed to search scholarships. Please try again.").

Section Handler.

Variable URL_parses : jsstring -> bool.

(** [process.env.PERPLEXITY_API_KEY] *)
Variable api_key : option jsstring.

(** The completion service, asked with the query. *)
Variable api : jsstring -> settled.

Definition profile (body : Body) : result Profile :=
  and_then (method_trim (b_collegeName body)) (fun cn =>
  and_then (method_trim (b_course body)) (fun co =>
  and_then (optional_trim (b_location body)) (fun lo =>
  and_then (optional_trim (b_gpa body)) (fun gp =>
  and_then (optional_trim (b_category body)) (fun ca =>
  and_then (optional_trim (b_budget body)) (fun bu =>
  Ok {| collegeName := cn; course := co; location := lo; gpa := gp;
        category := ca; budget := bu |})))))).

(** The [try] block of [app.post('/api/search-scholarships', ...)]. *)
Definition try_search (body : Body) : result reply :=
  and_then (blank (b_collegeName body)) (fun no_college =>
  if no_college then Ok (Failure 400 (lit "College name is required"))
  else
    and_then (blank (b_course body)) (fun no_course =>
    if no_course then Ok (Failure 400 (lit "Course is required"))
    else if negb (truthy (match api_key with Some k => k | None => [] end))
    then Ok (Failure 500 (lit "Server configuration error - API key not configured"))
    else
      and_then (profile body) (fun p =>
      match api (buildEnhancedQuery p) with
      | Rejected e => Raise e
      | Fulfilled status content =>
        if negb (Nat.eqb status 200) then Raise plain_error
        else if falsy content then Raise plain_error
        else
          let scholarships :=
            Server.parseScholarshipResponse URL_parses content in
          Ok (Success scholarships (List.length scholarships))
      end))).

Definition search_scholarships (body : Body) : reply :=
  match try_search body with
  | Ok r => r
  | Raise e => on_error e
  end.

End Handler.

(** A string made of white space only. *)
Definition all_space (s : jsstring) : bool := forallb is_space s.

(** A required field that passes the check: a string with something else
    than white space in it. *)
Definition filled (v : value) : bool :=
  match v with
  | VString s => negb (all_space s)
  | _ => false
  end.

(** A field that fails the check without a throw: falsy, or a string of
    white space. *)
Definition missing (v : value) : bool :=
  match v with
  | VString s => all_space s
  | _ => falsy v
  end.

(** An optional field that is [null], empty or white space, taken as
    absent. *)
Definition unblank (v : value) : value :=
  match v with
  | VNull => VUndefined
  | VString s => if all_space s then VUndefined else v
  | _ => v
  end.

Definition unblank_optional (body : Body) : Body :=
  {| b_collegeName := b_collegeName body;
     b_course := b_course body;
     b_location := unblank (b_location body);
     b_gpa := unblank (b_gpa body);
     b_category := unblank (b_category body);
     b_budget := unblank (b_budget body) |}.

(** The codes of a reply. *)
Definition known_status (c : nat) : bool :=
  existsb (Nat.eqb c) [200; 400; 408; 429; 500].

End ServerApp.

(** ** Links put to the URL parser, and where a text is cut *)

Module Links.

(** The link that a pattern of [extractLink] (server.js) puts to [new URL]:
    group 1 or else the whole match, with [https://] before it unless it
    starts with [http]. *)
Definition link_candidate (pattern : regexp) (text : jsstring)
  : option jsstring :=
  match exec pattern text with
  | Some m =>
    let link := or_else (mgroup 1 m) (m0 m) in
    Some (if negb (startsWith link (lit "http")) then lit "https://" ++ link
          else link)
  | None => None
  end.

(** The pattern gives no link: it does not match, or [new URL] refuses its
    candidate. *)
Definition refused (URL_parses : jsstring -> bool) (text : jsstring)
  (pattern : regexp) : bool :=
  match link_candidate pattern text with
  | Some l => negb (URL_parses l)
  | None => true
  end.

(** A text whose bare link is no URL, followed by a labelled domain. *)
Definition two_links : jsstring :=
  lit "The portal is at https://< for now, website: www.example.org today".



End Links.

Unset Implicit Arguments.

(** ** Facts about the matcher *)

Module MatcherFacts.

Import Captures.

Lemma get_cap_filter n gs c :
  existsb (Nat.eqb n) gs = false ->
  get_cap n (filter (fun e => negb (existsb (Nat.eqb (fst e)) gs)) c) = get_cap n c.
Proof.
  intros Hn. induction c as [|[m ab] c IH]; simpl; [reflexivity|].
  destruct (existsb (Nat.eqb m) gs) eqn:Hm; simpl.
  - destruct (Nat.eqb m n) eqn:E; [|exact IH].
    apply Nat.eqb_eq in E. subst. congruence.
  - rewrite IH. reflexivity.
Qed.

Lemma has_cap_clear n gs st :
  existsb (Nat.eqb n) gs = false -> has_cap n st -> has_cap n (clear_caps gs st).
Proof.
  intros Hn H. unfold clear_caps. destruct gs; [exact H|].
  unfold has_cap, with_caps. cbn [caps]. rewrite get_cap_filter; assumption.
Qed.

Section Continuation.

Variable fl : flags.
Variable n : nat.

Lemma step_if_keeps ok : keeps (has_cap n) (step_if ok).
Proof.
  intros k st res H. unfold step_if in H.
  destruct (rest st) as [|c t]; [discriminate|].
  destruct (ok c); [|discriminate].
  eexists; split; [exact H|]. intros Hc; exact Hc.
Qed.

Lemma repeat_greedy_keeps P m :
  keeps P m -> forall b, keeps P (fun k => repeat_greedy m k b).
Proof.
  intros Hm b. induction b as [|b IH]; intros k st res H; simpl in H.
  - eauto.
  - destruct (m _ st) as [r|] eqn:E.
    + inversion H; subst r. apply Hm in E. destruct E as (st1 & E & K1).
      destruct (Nat.eqb (pos st1) (pos st)); [discriminate|].
      apply IH in E. destruct E as (st2 & E & K2). eauto.
    + eauto.
Qed.

Lemma repeat_min_keeps P m mx :
  keeps P m -> forall c, keeps P (fun k => repeat_min m mx k c).
Proof.
  intros Hm c. induction c as [|c IH]; intros k st res H; simpl in H.
  - eapply repeat_greedy_keeps in H; eauto.
  - apply Hm in H. destruct H as (st1 & H & K1).
    apply IH in H. destruct H as (st2 & H & K2). eauto.
Qed.

(** Every result of [rmatch] is a result of its continuation, which is called
    with group [n] recorded when the pattern [sets] it, or when the group was
    recorded before and the pattern does not touch it. *)
Lemma rmatch_caps r : forall k st res,
  rmatch fl r k st = Some res ->
  exists st', k st' = Some res /\
    (sets n r = true \/ (absent n r = true /\ has_cap n st) -> has_cap n st').
Proof.
  unfold absent.
  induction r; intros k st res H; simpl in H; simpl sets; simpl groups_of.
  - exists st. split; auto. intros [?|[_ ?]]; [discriminate|auto].
  - apply step_if_keeps in H. destruct H as (st' & H & K). exists st'. split; auto.
    intros [?|[_ ?]]; [discriminate|auto].
  - apply step_if_keeps in H. destruct H as (st' & H & K). exists st'. split; auto.
    intros [?|[_ ?]]; [discriminate|auto].
  - apply step_if_keeps in H. destruct H as (st' & H & K). exists st'. split; auto.
    intros [?|[_ ?]]; [discriminate|auto].
  - apply IHr1 in H. destruct H as (st1 & H & K1).
    apply IHr2 in H. destruct H as (st2 & H & K2).
    exists st2. split; auto. rewrite existsb_app, negb_orb.
    intros [Hs|[Ha Hc]].
    + apply orb_true_iff in Hs. destruct Hs as [Hs|Hs]; [|tauto].
      apply andb_true_iff in Hs. destruct Hs as [S1 G2]. tauto.
    + apply andb_true_iff in Ha. destruct Ha as [G1 G2]. tauto.
  - rewrite existsb_app, negb_orb.
    destruct (rmatch fl r1 k st) eqn:E.
    + inversion H; subst. apply IHr1 in E. destruct E as (st1 & E & K1).
      exists st1. split; auto. intros [Hs|[Ha Hc]].
      * apply andb_true_iff in Hs. destruct Hs. tauto.
      * apply andb_true_iff in Ha. destruct Ha. tauto.
    + apply IHr2 in H. destruct H as (st1 & E' & K1).
      exists st1. split; auto. intros [Hs|[Ha Hc]].
      * apply andb_true_iff in Hs. destruct Hs. tauto.
      * apply andb_true_iff in Ha. destruct Ha. tauto.
  - destruct (existsb (Nat.eqb n) (groups_of r)) eqn:G; simpl.
    + eapply (@repeat_min_keeps (fun _ => True)) in H.
      * destruct H as (st' & H & _). exists st'. split; auto.
        intros [?|[? _]]; discriminate.
      * intros k' st' res' H'. apply IHr in H'. destruct H' as (st1 & H' & _).
        exists st1. split; auto.
    + eapply (@repeat_min_keeps (has_cap n)) in H.
      * destruct H as (st' & H & K). exists st'. split; auto.
        intros [?|[_ ?]]; [discriminate|auto].
      * intros k' st' res' H'. apply IHr in H'. destruct H' as (st1 & H' & K1).
        exists st1. split; auto. intros Hc. apply K1. right. split; auto.
        apply has_cap_clear; auto.
  - apply IHr in H. destruct H as (st1 & H & K1).
    eexists; split; [exact H|]. unfold has_cap. simpl.
    destruct (Nat.eqb n0 n) eqn:E; [intros _; discriminate|].
    rewrite Nat.eqb_sym, E. simpl. exact K1.
  - destruct (rmatch fl r Some st) as [st1|] eqn:E; [|discriminate].
    apply IHr in E. destruct E as (st2 & E & K1). inversion E; subst st2.
    eexists; split; [exact H|]. intros [?|[Ha Hc]]; [discriminate|].
    apply K1. right. auto.
  - destruct (at_line_start fl st); [|discriminate]. exists st. split; auto.
    intros [?|[_ ?]]; [discriminate|auto].
  - destruct (at_word_boundary st); [|discriminate]. exists st. split; auto.
    intros [?|[_ ?]]; [discriminate|auto].
Qed.

End Continuation.

(** A match of a pattern that [sets] group [n] has [m[n]] defined. *)
Lemma exec_group n re s m :
  sets n (re_pattern re) = true -> exec re s = Some m ->
  exists g, mgroup n m = Some g.
Proof.
  intros Hs H. unfold exec in H.
  destruct (search (re_flags re) (re_pattern re) 0 None s) as [[i st]|] eqn:E;
    [|discriminate].
  inversion H; subst m; clear H. unfold mgroup; simpl.
  assert (Hc : has_cap n st).
  { revert E. generalize 0 at 1. generalize (@None code_unit).
    induction s as [|c t IH]; intros p j E; simpl in E.
    - destruct (match_here _ _ j p []) eqn:M; [|discriminate].
      inversion E; subst. apply (rmatch_caps (re_flags re) n) in M.
      destruct M as (st' & M & K). inversion M; subst. auto.
    - destruct (match_here _ _ j p (c :: t)) eqn:M.
      + inversion E; subst. apply (rmatch_caps (re_flags re) n) in M.
        destruct M as (st' & M & K). inversion M; subst. auto.
      + eapply IH; eauto. }
  unfold has_cap in Hc. destruct (get_cap n (caps st)) as [[a b]|]; [eauto|congruence].
Qed.

End MatcherFacts.

(** ** The orchestrators as functions of the accepted candidates *)

Module Orchestrator.

Import Spec Captures MatcherFacts.

Lemma firstn_step {A} (x : A) (l : list A) (k n : nat) :
  n < k -> firstn (k - n) (x :: l) = x :: firstn (k - S n) l.
Proof.
  intros H. replace (k - n) with (S (k - S n)) by lia. reflexivity.
Qed.

Section Rich.

Variable URL_parses : jsstring -> bool.

Lemma rich_visit s arr :
  Server.visit URL_parses s arr
  = (Return tt, arr ++ keep (rich_candidate URL_parses s)).
Proof.
  unfold Server.visit, rich_candidate.
  destruct (List.length (trim s) <? 100).
  - unfold ret. simpl. rewrite app_nil_r. reflexivity.
  - destruct (Server.accepts _); unfold push, ret; simpl.
    + reflexivity.
    + rewrite app_nil_r. reflexivity.
Qed.

(** The loop collects the accepted candidates in order until it holds ten. *)
Lemma rich_for_sections sections : forall arr,
  Server.for_sections URL_parses sections arr
  = (Return tt,
     arr ++ firstn (10 - List.length arr)
              (flat_map (fun s => keep (rich_candidate URL_parses s)) sections)).
Proof.
  induction sections as [|s more IH]; intros arr;
    cbn [Server.for_sections flat_map].
  - rewrite firstn_nil, app_nil_r. reflexivity.
  - unfold bind, array_length. destruct (List.length arr <? 10) eqn:E.
    + apply Nat.ltb_lt in E. rewrite rich_visit, IH, <- app_assoc. f_equal. f_equal.
      destruct (rich_candidate URL_parses s); cbn [keep app].
      * rewrite length_app. cbn [List.length]. rewrite Nat.add_1_r.
        symmetry. apply firstn_step. exact E.
      * rewrite app_nil_r. reflexivity.
    + apply Nat.ltb_ge in E. replace (10 - List.length arr) with 0 by lia.
      cbn [firstn]. rewrite app_nil_r. reflexivity.
Qed.

Lemma rich_try_block text :
  Server.try_block URL_parses (VString text) []
  = (Return tt,
     or_fallback (firstn 10 (rich_accepted URL_parses text)) Server.fallback).
Proof.
  unfold Server.try_block, bind, lift, call_split.
  rewrite rich_for_sections.
  change (10 - List.length (@nil Scholarship)) with 10.
  fold (rich_accepted URL_parses text). rewrite app_nil_l.
  unfold array_length.
  destruct (firstn 10 (rich_accepted URL_parses text)); reflexivity.
Qed.

Lemma rich_try_block_throws v :
  is_string v = false ->
  exists e, Server.try_block URL_parses v [] = (Throw e, []).
Proof.
  destruct v; simpl; intros H; try discriminate; eexists; reflexivity.
Qed.

Lemma firstn_8_10 {A} (l : list A) : firstn 8 (firstn 10 l) = firstn 8 l.
Proof. rewrite firstn_firstn. reflexivity. Qed.

Lemma rich_parse text :
  Server.parseScholarshipResponse URL_parses (VString text)
  = firstn 8 (or_fallback (rich_accepted URL_parses text) Server.fallback).
Proof.
  unfold Server.parseScholarshipResponse, try_catch_then, slice0.
  rewrite rich_try_block. cbn [snd].
  destruct (rich_accepted URL_parses text) as [|r l] eqn:E.
  - reflexivity.
  - change (firstn 10 (r :: l)) with (r :: firstn 9 l).
    unfold or_fallback. change (r :: firstn 9 l) with (firstn 10 (r :: l)).
    apply firstn_8_10.
Qed.

End Rich.

(** The two extractors of the simpler variant that dereference [match[1]]
    find it defined: their patterns record the group in every match. *)
Lemma trim_group_returns (patterns : list regexp) (text d : jsstring) :
  Forall (fun p => sets 1 (re_pattern p) = true) patterns ->
  exists n,
    for_of_return patterns
      (fun pattern =>
         match exec pattern text with
         | Some m => Some (call_trim (mgroup 1 m))
         | None => None
         end)
      (Return d) = Return n.
Proof.
  induction 1 as [|p l Hp _ IH]; simpl.
  - eauto.
  - destruct (exec p text) as [m|] eqn:E; [|exact IH].
    destruct (exec_group 1 p text m Hp E) as (g & Hg). rewrite Hg. simpl. eauto.
Qed.

Lemma extractName_returns text : exists n, Simple.extractName text = Return n.
Proof.
  apply trim_group_returns. repeat constructor.
Qed.

Lemma extractEligibility_returns text :
  exists n, Simple.extractEligibility text = Return n.
Proof.
  apply trim_group_returns. repeat constructor.
Qed.

Lemma build_returns section : exists r, Simple.build section = Return r.
Proof.
  unfold Simple.build.
  destruct (extractName_returns section) as (n & ->).
  destruct (extractEligibility_returns section) as (e & ->). eauto.
Qed.

Lemma simple_visit s arr :
  Simple.visit s arr = (Return tt, arr ++ keep (simple_candidate s)).
Proof.
  unfold Simple.visit, simple_candidate.
  destruct (List.length s <? 50).
  - unfold ret. simpl. rewrite app_nil_r. reflexivity.
  - destruct (build_returns s) as (r & ->). unfold bind, lift.
    destruct (Simple.accepts r); unfold push, ret; simpl.
    + reflexivity.
    + rewrite app_nil_r. reflexivity.
Qed.

(** This loop has no bound: it collects every accepted candidate. *)
Lemma simple_for_sections sections : forall arr,
  Simple.for_sections sections arr
  = (Return tt, arr ++ flat_map (fun s => keep (simple_candidate s)) sections).
Proof.
  induction sections as [|s more IH]; intros arr; simpl.
  - rewrite app_nil_r. reflexivity.
  - unfold bind. rewrite simple_visit, IH, <- app_assoc. reflexivity.
Qed.

Lemma simple_try_block text :
  Simple.try_block (VString text) []
  = (Return tt,
     or_fallback (simple_accepted text) Simple.fallback).
Proof.
  unfold Simple.try_block, bind, lift, call_split.
  rewrite simple_for_sections. fold (simple_accepted text). rewrite app_nil_l.
  unfold array_length.
  destruct (simple_accepted text); reflexivity.
Qed.

Lemma simple_try_block_throws v :
  is_string v = false -> exists e, Simple.try_block v [] = (Throw e, []).
Proof.
  destruct v; simpl; intros H; try discriminate; eexists; reflexivity.
Qed.

Lemma simple_parse text :
  Simple.parseScholarships (VString text)
  = firstn 8 (or_fallback (simple_accepted text) Simple.fallback).
Proof.
  unfold Simple.parseScholarships, try_catch_then, slice0.
  rewrite simple_try_block. reflexivity.
Qed.

Lemma firstn_8_bounds {A} (l : list A) :
  l <> [] -> 1 <= List.length (firstn 8 l) <= 8.
Proof.
  intros H. rewrite length_firstn. destruct l; [congruence|].
  cbn [List.length]. lia.
Qed.

Lemma or_fallback_nonempty (l fb : list Scholarship) :
  fb <> [] -> or_fallback l fb <> [].
Proof. destruct l; [auto|discriminate]. Qed.

End Orchestrator.

(** ** Strings: prefixes, occurrences, trimming *)

Module StringFacts.

Import Spec.

Lemma startsWith_prefix s : forall p,
  startsWith s p = true <-> exists t, s = p ++ t.
Proof.
  induction s as [|y s IH]; intros [|x p]; simpl; split; intros H.
  - exists []. reflexivity.
  - reflexivity.
  - discriminate.
  - destruct H as (t & H). discriminate.
  - exists (y :: s). reflexivity.
  - reflexivity.
  - apply andb_true_iff in H. destruct H as [E H]. apply N.eqb_eq in E. subst y.
    apply IH in H. destruct H as (t & ->). exists t. reflexivity.
  - destruct H as (t & H). inversion H; subst. rewrite N.eqb_refl. simpl.
    apply IH. exists t. reflexivity.
Qed.

Lemma includes_infix s : forall sub, includes s sub = true <-> infix sub s.
Proof.
  induction s as [|y s IH]; intros sub; cbn [includes]; split; intros H.
  - rewrite orb_false_r in H. apply startsWith_prefix in H.
    destruct H as (t & H). exists [], t. exact H.
  - destruct H as (pre & post & H). rewrite orb_false_r.
    apply startsWith_prefix. destruct pre; simpl in H.
    + exists post. exact H.
    + discriminate.
  - apply orb_true_iff in H. destruct H as [H|H].
    + apply startsWith_prefix in H. destruct H as (t & H). exists [], t. exact H.
    + apply IH in H. destruct H as (pre & post & ->). exists (y :: pre), post. reflexivity.
  - destruct H as (pre & post & H). apply orb_true_iff. destruct pre; simpl in H.
    + left. apply startsWith_prefix. exists post. exact H.
    + right. inversion H; subst. apply IH. exists pre, post. reflexivity.
Qed.

Lemma infix_refl a : infix a a.
Proof. exists [], []. rewrite app_nil_r. reflexivity. Qed.

Lemma infix_trans a b c : infix a b -> infix b c -> infix a c.
Proof.
  intros (p1 & q1 & ->) (p2 & q2 & ->). exists (p2 ++ p1), (q1 ++ q2).
  rewrite <- !app_assoc. reflexivity.
Qed.

Lemma infix_skipn n s : infix (skipn n s) s.
Proof.
  exists (firstn n s), []. rewrite app_nil_r. symmetry. apply firstn_skipn.
Qed.

Lemma infix_firstn n s : infix (firstn n s) s.
Proof. exists [], (skipn n s). symmetry. apply firstn_skipn. Qed.

Lemma infix_substring s a b : infix (substring s a b) s.
Proof.
  unfold substring. eapply infix_trans; [apply infix_firstn|apply infix_skipn].
Qed.

Lemma infix_trimStart s : infix (trimStart s) s.
Proof.
  induction s as [|c s IH]; simpl.
  - apply infix_refl.
  - destruct (is_space c); [|apply infix_refl].
    eapply infix_trans; [exact IH|]. exists [c], []. rewrite app_nil_r. reflexivity.
Qed.

Lemma infix_rev a b : infix a b -> infix (rev a) (rev b).
Proof.
  intros (p & q & ->). exists (rev q), (rev p).
  rewrite !rev_app_distr, app_assoc. reflexivity.
Qed.

Lemma infix_trimEnd s : infix (trimEnd s) s.
Proof.
  unfold trimEnd. rewrite <- (rev_involutive s) at 2.
  apply infix_rev, infix_trimStart.
Qed.

Lemma infix_trim s : infix (trim s) s.
Proof.
  unfold trim. eapply infix_trans; [apply infix_trimEnd|apply infix_trimStart].
Qed.

Lemma infix_map (f : code_unit -> code_unit) a b :
  infix a b -> infix (map f a) (map f b).
Proof.
  intros (p & q & ->). exists (map f p), (map f q). rewrite !map_app. reflexivity.
Qed.

(** A keyword found in a part of a text is found in the text. *)
Lemma bearsb_infix kws a b : infix a b -> bearsb kws a = true -> bearsb kws b = true.
Proof.
  intros Hab H. unfold bearsb in *. apply existsb_exists in H.
  destruct H as (kw & Hin & H). apply existsb_exists. exists kw. split; [exact Hin|].
  apply includes_infix. apply includes_infix in H.
  eapply infix_trans; [exact H|]. apply infix_map. exact Hab.
Qed.

Lemma bears_bearsb kws s : bears kws s <-> bearsb kws s = true.
Proof.
  unfold bears, bearsb. rewrite Exists_exists, existsb_exists. reflexivity.
Qed.

Lemma truthy_nonempty s : truthy s = true <-> s <> [].
Proof. destruct s; simpl; split; congruence. Qed.

(** Comparing through the upper case, as flag [i] does, is comparing the
    lowered code unit with a letter that is not a capital. *)
Lemma canon_i c x :
  is_upper x = false ->
  (canon flag_i c =? canon flag_i x)%N = (lower_cu c =? x)%N.
Proof.
  unfold canon, upper_cu, lower_cu, is_upper, is_lower. simpl ignoreCase.
  intros Hx.
  destruct (N.leb_spec 97 c), (N.leb_spec c 122), (N.leb_spec 65 c),
    (N.leb_spec c 90), (N.leb_spec 97 x), (N.leb_spec x 122),
    (N.leb_spec 65 x), (N.leb_spec x 90); simpl in *; try discriminate;
    try lia;
    match goal with
    | |- (?a =? ?b)%N = (?c =? ?d)%N =>
      destruct (N.eqb_spec a b), (N.eqb_spec c d); try reflexivity; lia
    end.
Qed.

End StringFacts.

(** ** The article pattern *)

Module ArticleFacts.

Import Spec StringFacts.

Lemma article_only_at_start t : forall i c,
  search flag_i (re_pattern Server.article) (S i) (Some c) t = None.
Proof.
  induction t as [|x t IH]; intros i c.
  - reflexivity.
  - cbn [search]. 
    replace (match_here flag_i (re_pattern Server.article) (S i) (Some c) (x :: t))
      with (@None mstate) by reflexivity.
    apply IH.
Qed.

Lemma upper_cu_idem x : upper_cu (upper_cu x) = upper_cu x.
Proof.
  unfold upper_cu, is_lower.
  destruct (N.leb_spec 97 x), (N.leb_spec x 122); cbn [andb]; try reflexivity;
    try (destruct (N.leb_spec 97 x), (N.leb_spec x 122); cbn [andb];
         try reflexivity; lia).
  destruct (N.leb_spec 97 (x - 32)), (N.leb_spec (x - 32) 122); cbn [andb];
    try reflexivity; lia.
Qed.

Lemma article_at_start n :
  match_here flag_i (re_pattern Server.article) 0 None n
  = if startsWith (toLowerCase n) (lit "the ")
    then Some {| pos := 4; prev := Some (nth 3 n 0%N); rest := skipn 4 n;
                 caps := [(1, (0, 4))] |}
    else if startsWith (toLowerCase n) (lit "a ")
    then Some {| pos := 2; prev := Some (nth 1 n 0%N); rest := skipn 2 n;
                 caps := [(1, (0, 2))] |}
    else None.
Proof.
  unfold match_here, Server.article.
  cbv [re_pattern seq alt str lit bytes_of utf16_of_utf8 map N_of_ascii N.ltb
       N.compare Pos.compare Pos.compare_cont N_of_digits N.add N.mul Pos.add
       Pos.mul Pos.succ toLowerCase].
  change (Chr 84%N) with (Chr (upper_cu 116%N)).
  change (Chr 65%N) with (Chr (upper_cu 97%N)).
  assert (V : forall c x, is_upper x = false ->
            (canon flag_i c =? canon flag_i x)%N = (x =? lower_cu c)%N).
  { intros c x Hx. rewrite canon_i by exact Hx. apply N.eqb_sym. }
  assert (U : forall c x, is_upper x = false ->
            (canon flag_i c =? canon flag_i (upper_cu x))%N = (x =? lower_cu c)%N).
  { intros c x Hx. rewrite <- V by exact Hx. f_equal.
    unfold canon. cbn [ignoreCase flag_i]. apply upper_cu_idem. }
  destruct n as [|c1 [|c2 [|c3 [|c4 t]]]];
    cbn [rmatch step_if rest at_line_start prev advance pos caps set_cap
         startsWith map nth skipn];
    rewrite ?U, ?V by reflexivity;
    repeat match goal with
    | |- context [(?k =? lower_cu ?c)%N] =>
      destruct (k =? lower_cu c)%N eqn:?; cbn [andb]
    end; try reflexivity; destruct t; reflexivity.
Qed.

(** What [name.replace(/^(The |A )/i, '')] leaves. *)
Lemma replace_article n : replace_empty Server.article n = strip_article_ci n.
Proof.
  unfold replace_empty, exec, strip_article_ci.
  change (re_flags Server.article) with flag_i.
  assert (S0 : search flag_i (re_pattern Server.article) 0 None n
               = match match_here flag_i (re_pattern Server.article) 0 None n with
                 | Some st => Some (0, st)
                 | None => None
                 end).
  { destruct n as [|c t]; cbn [search]; [reflexivity|].
    rewrite article_only_at_start. reflexivity. }
  rewrite S0, article_at_start.
  destruct (startsWith (toLowerCase n) (lit "the ")); [reflexivity|].
  destruct (startsWith (toLowerCase n) (lit "a ")); reflexivity.
Qed.

Lemma infix_strip_article n : infix (strip_article_ci n) n.
Proof.
  unfold strip_article_ci.
  destruct (startsWith _ _); [apply infix_skipn|].
  destruct (startsWith _ _); [apply infix_skipn|apply infix_refl].
Qed.

End ArticleFacts.

(** ** The extractors *)

Module ExtractorFacts.

Import Spec Captures MatcherFacts StringFacts ArticleFacts.

(** A [for ... of] loop with a [return] in it either falls through every
    element, or returns at the first element whose body returns. *)
Lemma for_of_return_cases {A R} (l : list A) (body : A -> option R) (d : R) :
  (for_of_return l body d = d /\ Forall (fun x => body x = None) l)
  \/ exists k x r,
       nth_error l k = Some x /\ body x = Some r
       /\ for_of_return l body d = r
       /\ Forall (fun y => body y = None) (firstn k l).
Proof.
  induction l as [|a l IH]; simpl.
  - left. split; [reflexivity|constructor].
  - destruct (body a) as [r|] eqn:E.
    + right. exists 0, a, r. simpl. repeat split; auto.
    + destruct IH as [[H1 H2]|(k & x & r & H1 & H2 & H3 & H4)].
      * left. split; [exact H1|]. constructor; assumption.
      * right. exists (S k), x, r. simpl. repeat split; auto.
Qed.

Lemma for_of_return_ext {A R} (l : list A) (f g : A -> option R) (d : R) :
  (forall x, f x = g x) -> for_of_return l f d = for_of_return l g d.
Proof.
  intros H. induction l as [|a l IH]; simpl; [reflexivity|].
  rewrite H, IH. reflexivity.
Qed.

(** [extractScholarshipName] returns the first offer of its patterns. *)
Lemma extractScholarshipName_offers text :
  Server.extractScholarshipName text
  = for_of_return Server.name_patterns (fun p => offer p text)
      (lit "Educational Opportunity").
Proof.
  unfold Server.extractScholarshipName. apply for_of_return_ext. intros p.
  unfold offer, proposal, in_bounds.
  destruct (exec p text) as [m|]; [|reflexivity].
  destruct (mgroup 1 m) as [g|]; [|reflexivity].
  destruct (truthy g); [|reflexivity].
  rewrite replace_article. reflexivity.
Qed.

Lemma exec_input re s m : exec re s = Some m -> m_input m = s.
Proof.
  unfold exec. destruct (search _ _ _ _ _) as [[i st]|]; [|discriminate].
  intros H. inversion H. reflexivity.
Qed.

Lemma mgroup_infix re s m n g :
  exec re s = Some m -> mgroup n m = Some g -> infix g s.
Proof.
  intros E H. unfold mgroup in H. apply exec_input in E.
  destruct (get_cap n (m_caps m)) as [[a b]|]; [|discriminate].
  inversion H; subst. apply infix_substring.
Qed.

(** A proposed name is a piece of the text it was found in. *)
Lemma proposal_infix p text n : proposal p text = Some n -> infix n text.
Proof.
  unfold proposal. destruct (exec p text) as [m|] eqn:E; [|discriminate].
  destruct (mgroup 1 m) as [g|] eqn:G; [|discriminate].
  destruct (truthy g); [|discriminate].
  intros H. inversion H; subst.
  eapply infix_trans; [apply infix_strip_article|].
  eapply infix_trans; [apply infix_trim|].
  eapply mgroup_infix; eauto.
Qed.

Lemma offer_proposal p text n :
  offer p text = Some n -> proposal p text = Some n /\ in_bounds n = true.
Proof.
  unfold offer. destruct (proposal p text) as [x|]; [|discriminate].
  destruct (in_bounds x) eqn:B; [|discriminate].
  intros H. inversion H; subst. auto.
Qed.

(** The name is the placeholder or a piece of the segment. *)
Lemma extractScholarshipName_source text :
  Server.extractScholarshipName text = lit "Educational Opportunity"
  \/ infix (Server.extractScholarshipName text) text.
Proof.
  rewrite extractScholarshipName_offers.
  destruct (for_of_return_cases Server.name_patterns (fun p => offer p text)
              (lit "Educational Opportunity"))
    as [[H _]|(k & p & n & _ & H & -> & _)].
  - left. exact H.
  - right. apply offer_proposal in H. destruct H as [H _].
    eapply proposal_infix; eauto.
Qed.

Section Link.

Variable URL_parses : jsstring -> bool.

(** [extractLink] only returns a link that [new URL] took. *)
Lemma extractLink_validated text l :
  Server.extractLink URL_parses text = Some l -> URL_parses l = true.
Proof.
  unfold Server.extractLink.
  match goal with
  | |- for_of_return ?ps ?body ?d = _ -> _ =>
    destruct (for_of_return_cases ps body d)
      as [[H _]|(k & p & r & _ & H & -> & _)]
  end.
  - rewrite H. discriminate.
  - intros ->. destruct (exec p text) as [m|]; [|discriminate].
    cbv zeta in H.
    match type of H with
    | (if URL_parses ?x then _ else _) = _ =>
      destruct (URL_parses x) eqn:U; [|discriminate]
    end.
    inversion H; subst. exact U.
Qed.

Lemma link_validated text :
  URL_parses (lit "https://scholarships.gov.in") = true ->
  URL_parses (link (Server.extractScholarshipInfo URL_parses text)) = true.
Proof.
  intros Hp. unfold Server.extractScholarshipInfo. cbn [link]. unfold or_else.
  destruct (Server.extractLink URL_parses text) as [l|] eqn:E; [|exact Hp].
  destruct (truthy l); [|exact Hp]. eapply extractLink_validated; eauto.
Qed.

End Link.

End ExtractorFacts.

(** ** Splitting on a lookahead *)

Module SplitFacts.

Import Spec.








Lemma cuts_single s o x : cuts_at_markers s o [x] = true.
Proof. reflexivity. Qed.

End SplitFacts.

(** ** Validation *)

Module ValidatorFacts.

Import Spec StringFacts ExtractorFacts Orchestrator.

Lemma rich_accepts_spec r :
  Server.accepts r = true <->
  name r <> [] /\ 8 < List.length (name r) < 200
  /\ includes (toLowerCase (name r)) (lit "here are") = false
  /\ includes (toLowerCase (name r)) (lit "following") = false
  /\ bears keywords (name r).
Proof.
  unfold Server.accepts. rewrite bears_bearsb.
  unfold bearsb, keywords. cbn [map existsb]. rewrite orb_false_r.
  rewrite !andb_true_iff, !negb_true_iff, !Nat.ltb_lt, truthy_nonempty.
  rewrite !orb_assoc. tauto.
Qed.

Lemma simple_accepts_spec r :
  Simple.accepts r = true <->
  name r <> [] /\ 10 < List.length (name r)
  /\ bears (map lit ["scholarship"; "grant"; "award"]%string) (name r).
Proof.
  unfold Simple.accepts. rewrite bears_bearsb.
  unfold bearsb. cbn [map existsb]. rewrite orb_false_r.
  rewrite !andb_true_iff, !Nat.ltb_lt, truthy_nonempty.
  rewrite !orb_assoc. tauto.
Qed.

Lemma rich_accepts_named r : Server.accepts r = true -> named r.
Proof.
  intros H. apply rich_accepts_spec in H. unfold named. tauto.
Qed.

Lemma simple_accepts_named r : Simple.accepts r = true -> named r.
Proof.
  intros H. apply simple_accepts_spec in H. destruct H as (H1 & _ & H3).
  split; [exact H1|]. unfold bears in *. rewrite Exists_exists in *.
  destruct H3 as (kw & Hin & H). exists kw. split; [|exact H].
  cbn in Hin |- *. tauto.
Qed.

Lemma Forall_firstn {A} (P : A -> Prop) n : forall l,
  Forall P l -> Forall P (firstn n l).
Proof.
  induction n as [|n IH]; intros l H; simpl; [constructor|].
  destruct H; constructor; auto.
Qed.

Lemma Forall_keep (P : Scholarship -> Prop) {A} (f : A -> option Scholarship) l :
  (forall x r, f x = Some r -> P r) ->
  Forall P (flat_map (fun x => keep (f x)) l).
Proof.
  intros H. induction l as [|x l IH]; simpl; [constructor|].
  apply Forall_app. split; [|exact IH].
  destruct (f x) eqn:E; simpl; [|constructor].
  constructor; [eauto|constructor].
Qed.

Lemma Forall_or_fallback (P : Scholarship -> Prop) l fb :
  Forall P l -> Forall P fb -> Forall P (or_fallback l fb).
Proof. intros Hl Hfb. destruct l; [exact Hfb|exact Hl]. Qed.

Lemma rich_candidate_accepted URL s r :
  rich_candidate URL s = Some r ->
  r = Server.extractScholarshipInfo URL (trim s)
  /\ 100 <= List.length (trim s) /\ Server.accepts r = true.
Proof.
  unfold rich_candidate. destruct (List.length (trim s) <? 100) eqn:L; [discriminate|].
  apply Nat.ltb_ge in L.
  destruct (Server.accepts _) eqn:A; [|discriminate].
  intros H. inversion H; subst. auto.
Qed.

Lemma simple_candidate_accepted s r :
  simple_candidate s = Some r ->
  Simple.build s = Return r /\ 50 <= List.length s /\ Simple.accepts r = true.
Proof.
  unfold simple_candidate. destruct (List.length s <? 50) eqn:L; [discriminate|].
  apply Nat.ltb_ge in L.
  destruct (Simple.build s) as [x|]; [|discriminate].
  destruct (Simple.accepts x) eqn:A; [|discriminate].
  intros H. inversion H; subst. auto.
Qed.

Lemma rich_fallback_named : Forall named Server.fallback.
Proof.
  repeat constructor; try discriminate;
    apply bears_bearsb; vm_compute; reflexivity.
Qed.

Lemma simple_fallback_named : Forall named Simple.fallback.
Proof.
  repeat constructor; try discriminate;
    apply bears_bearsb; vm_compute; reflexivity.
Qed.

(** In [server.js] a segment without a keyword gives no candidate: the name
    is cut out of the segment, or is the placeholder, which has none. *)
Lemma rich_candidate_bears URL s r :
  rich_candidate URL s = Some r -> bearsb keywords (trim s) = true.
Proof.
  intros H. apply rich_candidate_accepted in H. destruct H as (-> & _ & A).
  apply rich_accepts_named in A. destruct A as [_ A]. apply bears_bearsb in A.
  cbn [name Server.extractScholarshipInfo] in A.
  destruct (extractScholarshipName_source (trim s)) as [E|E].
  - rewrite E in A. vm_compute in A. discriminate.
  - eapply bearsb_infix; eauto.
Qed.

(** The fallback property of [server.js], for every text. *)
Lemma rich_fallback_without_keyword URL text :
  Forall (fun s => List.length (trim s) < 100 \/ bearsb keywords (trim s) = false)
         (split Server.splitter text) ->
  Server.parseScholarshipResponse URL (VString text) = Server.fallback.
Proof.
  intros H. rewrite rich_parse.
  assert (E : rich_accepted URL text = []).
  { unfold rich_accepted. induction H as [|s l Hs _ IH]; simpl; [reflexivity|].
    rewrite IH, app_nil_r.
    destruct (rich_candidate URL s) as [r|] eqn:C; [|reflexivity].
    exfalso. destruct Hs as [Hs|Hs].
    - apply rich_candidate_accepted in C. lia.
    - apply rich_candidate_bears in C. congruence. }
  rewrite E. reflexivity.
Qed.

End ValidatorFacts.

(** ** Where a match ends *)

Module ExtentFacts.

Import Spec Captures MatcherFacts StringFacts Extent.

Lemma within_weaken w n : within w n -> within None n.
Proof. intros _. exact I. Qed.

Lemma ahead_refl w st : within w 0 -> ahead w st st.
Proof.
  intros H. exists 0. rewrite Nat.add_0_r. repeat split; auto.
Qed.

Lemma within_zero w : within (times_bound 0 w) 0.
Proof. destruct w; simpl; auto. Qed.

Lemma ahead_trans w1 w2 w st1 st2 st3 :
  (forall a b, within w1 a -> within w2 b -> within w (a + b)) ->
  ahead w1 st1 st2 -> ahead w2 st2 st3 -> ahead w st1 st3.
Proof.
  intros Hw (a & Wa & Pa & Ra) (b & Wb & Pb & Rb). exists (a + b).
  repeat split; auto.
  - lia.
  - rewrite Rb, Ra, skipn_skipn. f_equal. lia.
Qed.

Lemma ahead_none w st st' : ahead w st st' -> ahead None st st'.
Proof. intros (n & _ & H). exists n. split; [exact I|exact H]. Qed.

Section Reach.

Variable fl : flags.

Lemma step_if_reaches ok : reaches (Some 1) (step_if ok).
Proof.
  intros k st res H. unfold step_if in H.
  destruct (rest st) as [|c t] eqn:R; [discriminate|].
  destruct (ok c); [|discriminate].
  eexists; split; [exact H|]. exists 1. simpl. rewrite R.
  repeat split; auto. lia.
Qed.

Lemma repeat_greedy_reaches w m :
  reaches w m -> forall b, reaches (times_bound b w) (fun k => repeat_greedy m k b).
Proof.
  intros Hm b. induction b as [|b IH]; intros k st res H; cbn [repeat_greedy] in H.
  - exists st. split; [exact H|]. apply ahead_refl, within_zero.
  - destruct (m _ st) as [r|] eqn:E.
    + inversion H; subst r. apply Hm in E. destruct E as (st1 & E & A1).
      destruct (Nat.eqb (pos st1) (pos st)); [discriminate|].
      apply IH in E. destruct E as (st2 & E & A2).
      exists st2. split; [exact E|].
      eapply ahead_trans; [|exact A1|exact A2].
      intros x y. destruct w; simpl; [lia|auto].
    + exists st. split; [exact H|]. apply ahead_refl.
      destruct w; simpl; [lia|auto].
Qed.

Lemma repeat_min_reaches w m mx :
  reaches w m -> forall c,
  reaches (match mx with
           | Some b => times_bound (c + b) w
           | None => None
           end)
          (fun k => repeat_min m mx k c).
Proof.
  intros Hm c. induction c as [|c IH]; intros k st res H; cbn [repeat_min] in H.
  - destruct mx as [b|].
    + apply (repeat_greedy_reaches w m Hm b) in H. exact H.
    + apply (repeat_greedy_reaches w m Hm) in H.
      destruct H as (st' & H & A). exists st'. split; [exact H|].
      eapply ahead_none; eauto.
  - apply Hm in H. destruct H as (st1 & H & A1).
    apply IH in H. destruct H as (st2 & H & A2).
    exists st2. split; [exact H|].
    eapply ahead_trans; [|exact A1|exact A2].
    intros x y. destruct mx as [b|]; [|simpl; auto].
    destruct w; simpl; [lia|auto].
Qed.

Lemma clear_caps_same gs st :
  pos (clear_caps gs st) = pos st /\ rest (clear_caps gs st) = rest st.
Proof. destruct gs; split; reflexivity. Qed.

(** Every result of [rmatch] comes from its continuation, called further on
    in the same input, and no further than the pattern allows. *)
Lemma rmatch_reaches r : reaches (maxw r) (rmatch fl r).
Proof.
  induction r; intros k st res H; cbn [rmatch] in H; cbn [maxw].
  - exists st. split; [exact H|]. apply ahead_refl. simpl. lia.
  - eapply step_if_reaches; eauto.
  - eapply step_if_reaches; eauto.
  - eapply step_if_reaches; eauto.
  - apply IHr1 in H. destruct H as (st1 & H & A1).
    apply IHr2 in H. destruct H as (st2 & H & A2).
    exists st2. split; [exact H|].
    eapply ahead_trans; [|exact A1|exact A2].
    intros x y. destruct (maxw r1), (maxw r2); simpl; auto. lia.
  - destruct (rmatch fl r1 k st) eqn:E.
    + inversion H; subst. apply IHr1 in E. destruct E as (st1 & E & (n & W & P)).
      exists st1. split; [exact E|]. exists n. split; [|exact P].
      destruct (maxw r1), (maxw r2); simpl in *; auto. lia.
    + apply IHr2 in H. destruct H as (st1 & E' & (n & W & P)).
      exists st1. split; [exact E'|]. exists n. split; [|exact P].
      destruct (maxw r1), (maxw r2); simpl in *; auto. lia.
  - assert (Hm : reaches (maxw r)
                   (fun k' st' => rmatch fl r k' (clear_caps (groups_of r) st'))).
    { intros k' st' res' H'. apply IHr in H'.
      destruct H' as (st1 & H' & (n & W & P & R)).
      exists st1. split; [exact H'|]. exists n.
      destruct (clear_caps_same (groups_of r) st') as [Ep Er].
      rewrite Ep, Er in *. auto. }
    destruct max as [mx|].
    + apply (repeat_min_reaches (maxw r) _ (Some (mx - min)) Hm min) in H.
      exact H.
    + apply (repeat_min_reaches (maxw r) _ None Hm min) in H. exact H.
  - apply IHr in H. destruct H as (st1 & H & (m & W & P & R)).
    eexists. split; [exact H|]. exists m. auto.
  - destruct (rmatch fl r Some st) as [st1|]; [|discriminate].
    eexists. split; [exact H|]. exists 0. simpl.
    rewrite Nat.add_0_r. repeat split; auto.
  - destruct (at_line_start fl st); [|discriminate].
    exists st. split; [exact H|]. apply ahead_refl. simpl. lia.
  - destruct (at_word_boundary st); [|discriminate].
    exists st. split; [exact H|]. apply ahead_refl. simpl. lia.
Qed.

(** A pattern that ends with group 1 records it, no wider than the body of
    the group allows. *)
Lemma tail_group_width r : forall g w st res,
  tail_group r = Some g -> maxw g = Some w ->
  rmatch fl r Some st = Some res ->
  exists a b, get_cap 1 (caps res) = Some (a, b) /\ b - a <= w.
Proof.
  induction r; intros g w st res T W H; cbn [tail_group] in T;
    try discriminate.
  - cbn [rmatch] in H. apply rmatch_reaches in H.
    destruct H as (st1 & H & _). eapply IHr2; eauto.
  - destruct n as [|[|n]]; try discriminate. inversion T; subst g.
    cbn [rmatch] in H. apply rmatch_reaches in H.
    destruct H as (st1 & H & (m & Wm & P & _)). inversion H; subst res.
    exists (pos st), (pos st1). split; [reflexivity|].
    rewrite W in Wm. simpl in Wm. lia.
Qed.

End Reach.

Lemma search_tail_group_width fl r g w :
  tail_group r = Some g -> maxw g = Some w ->
  forall s j p i st, search fl r j p s = Some (i, st) ->
  exists a b, get_cap 1 (caps st) = Some (a, b) /\ b - a <= w.
Proof.
  intros T W. induction s as [|c t IH]; intros j p i st S; cbn [search] in S.
  - destruct (match_here _ _ j p []) eqn:M; [|discriminate].
    inversion S; subst. eapply tail_group_width; eauto.
  - destruct (match_here _ _ j p (c :: t)) eqn:M.
    + inversion S; subst. eapply tail_group_width; eauto.
    + eapply IH; eauto.
Qed.

Lemma substring_length_le (s : jsstring) a b :
  List.length (substring s a b) <= b - a.
Proof. unfold substring. rewrite length_firstn. lia. Qed.

(** The group of a match of such a pattern is at most [W] code units
    long. *)
Lemma exec_group_width W re s m g :
  group_width_le W re = true -> exec re s = Some m -> mgroup 1 m = Some g ->
  List.length g <= W.
Proof.
  unfold group_width_le, exec, mgroup. intros Hw E G.
  destruct (tail_group (re_pattern re)) as [body|] eqn:T; [|discriminate].
  destruct (maxw body) as [w|] eqn:Wb; [|discriminate].
  apply Nat.leb_le in Hw.
  destruct (search (re_flags re) (re_pattern re) 0 None s) as [[i st]|] eqn:S;
    [|discriminate].
  inversion E; subst m; clear E. cbn [m_caps m_input] in G.
  destruct (search_tail_group_width _ _ body w T Wb s 0 None i st S)
    as (a & b & C & Hab).
  rewrite C in G. inversion G; subst g.
  pose proof (substring_length_le s a b). lia.
Qed.

Lemma infix_length (a b : jsstring) : infix a b -> List.length a <= List.length b.
Proof. intros (p & q & ->). rewrite !length_app. lia. Qed.

Lemma trim_length s : List.length (trim s) <= List.length s.
Proof. apply infix_length, infix_trim. Qed.

End ExtentFacts.

(** ** Further properties of the pipeline *)

Module PipelineFacts.

Import Spec Captures MatcherFacts Orchestrator StringFacts ArticleFacts
  ExtractorFacts SplitFacts ValidatorFacts Extent ExtentFacts.

Lemma substring_length_input (s : jsstring) a b :
  List.length (substring s a b) <= List.length s.
Proof.
  unfold substring. rewrite length_firstn, length_skipn. lia.
Qed.

Lemma split_from_short re s rs : forall p q pv skip,
  Forall (fun seg => List.length seg <= List.length s)
         (split_from re s p q pv rs skip).
Proof.
  induction rs as [|c t IH]; intros p q pv skip; cbn [split_from].
  - constructor; [apply substring_length_input|constructor].
  - destruct skip; [|apply IH].
    destruct (match_here _ _ q pv (c :: t)); [|apply IH].
    destruct (Nat.eqb _ p); [apply IH|].
    constructor; [apply substring_length_input|apply IH].
Qed.

(** No piece of a split is longer than the string that was split. *)
Lemma split_short re s :
  Forall (fun seg => List.length seg <= List.length s) (split re s).
Proof.
  unfold split. destruct s as [|c t].
  - destruct (match_here _ _ 0 None []); repeat constructor.
  - apply split_from_short.
Qed.

Lemma simple_accepted_none text :
  Forall (fun s => List.length s < 50) (split Simple.splitter text) ->
  simple_accepted text = [].
Proof.
  unfold simple_accepted. induction 1 as [|s l Hs _ IH]; simpl; [reflexivity|].
  rewrite IH, app_nil_r. unfold simple_candidate.
  apply Nat.ltb_lt in Hs. rewrite Hs. reflexivity.
Qed.

Lemma extractScholarshipName_bounds text :
  10 < List.length (Server.extractScholarshipName text) < 150.
Proof.
  rewrite extractScholarshipName_offers.
  destruct (for_of_return_cases Server.name_patterns (fun p => offer p text)
              (lit "Educational Opportunity"))
    as [[H _]|(k & p & n & _ & H & -> & _)].
  - rewrite H. vm_compute. split; repeat constructor.
  - apply offer_proposal in H. destruct H as [_ H]. unfold in_bounds in H.
    apply andb_true_iff in H. destruct H as [H1 H2].
    apply Nat.ltb_lt in H1, H2. lia.
Qed.

Lemma startsWith_https link :
  startsWith (lit "https://" ++ link) (lit "http") = true.
Proof. reflexivity. Qed.

Lemma rich_link_http URL text :
  startsWith (link (Server.extractScholarshipInfo URL text)) (lit "http") = true.
Proof.
  unfold Server.extractScholarshipInfo. cbn [link]. unfold or_else.
  destruct (Server.extractLink URL text) as [l|] eqn:E; [|reflexivity].
  destruct (truthy l); [|reflexivity].
  revert E. unfold Server.extractLink.
  match goal with
  | |- for_of_return ?ps ?body ?d = _ -> _ =>
    destruct (for_of_return_cases ps body d)
      as [[H _]|(k & p & r & _ & H & -> & _)]
  end.
  - rewrite H. discriminate.
  - intros ->. destruct (exec p text) as [m|]; [|discriminate].
    cbv zeta in H.
    destruct (startsWith (or_else (mgroup 1 m) (m0 m)) (lit "http")) eqn:S;
      cbn [negb] in H.
    + destruct (URL _); [|discriminate]. inversion H; subst. exact S.
    + destruct (URL _); [|discriminate]. inversion H; subst.
      apply startsWith_https.
Qed.

(** Where [search] finds a match, the matcher was started on the input
    left at that index. *)
Lemma search_found fl r s : forall j p i st,
  search fl r j p s = Some (i, st) ->
  exists d p', i = j + d /\ match_here fl r i p' (skipn d s) = Some st.
Proof.
  induction s as [|c t IH]; intros j p i st Hs; cbn [search] in Hs.
  - destruct (match_here fl r j p []) eqn:M; [|discriminate].
    inversion Hs; subst. exists 0, p. rewrite Nat.add_0_r. auto.
  - destruct (match_here fl r j p (c :: t)) eqn:M.
    + inversion Hs; subst. exists 0, p. rewrite Nat.add_0_r. auto.
    + apply IH in Hs. destruct Hs as (d & p' & -> & Hs).
      exists (S d), p'. split; [lia|exact Hs].
Qed.

(** A match of the bare URL pattern records a group that begins with
    [http]. *)
Lemma bare_url_group text m g :
  exec bare_url text = Some m -> mgroup 1 m = Some g ->
  startsWith g (lit "http") = true.
Proof.
  unfold exec, mgroup. intros E G.
  destruct (search (re_flags bare_url) (re_pattern bare_url) 0 None text)
    as [[i st]|] eqn:Hs; [|discriminate].
  inversion E; subst m; clear E. cbn [m_caps m_input] in G.
  apply search_found in Hs. destruct Hs as (d & p' & -> & M).
  cbn [Nat.add] in M, G.
  unfold match_here in M.
  change (re_flags bare_url) with no_flags in M.
  change (re_pattern bare_url)
    with (Group 1
            (Seq (Seq (Chr 104%N) (Seq (Chr 116%N) (Seq (Chr 116%N) (Chr 112%N))))
                 (seq [opt (Chr (cu "s")); str "://"; plus not_space_paren])))
    in M.
  cbn [rmatch] in M. unfold step_if at 1 in M. cbn [rest] in M.
  destruct (skipn d text) as [|c1 r1] eqn:R; [discriminate|].
  destruct (canon no_flags c1 =? canon no_flags 104)%N eqn:C1; [|discriminate].
  unfold step_if at 1 in M. cbn [rest advance] in M.
  destruct r1 as [|c2 r2]; [discriminate|].
  destruct (canon no_flags c2 =? canon no_flags 116)%N eqn:C2; [|discriminate].
  unfold step_if at 1 in M. cbn [rest advance] in M.
  destruct r2 as [|c3 r3]; [discriminate|].
  destruct (canon no_flags c3 =? canon no_flags 116)%N eqn:C3; [|discriminate].
  unfold step_if at 1 in M. cbn [rest advance] in M.
  destruct r3 as [|c4 r4]; [discriminate|].
  destruct (canon no_flags c4 =? canon no_flags 112)%N eqn:C4; [|discriminate].
  apply rmatch_reaches in M. destruct M as (st' & M & (n & _ & P & _)).
  cbn [pos advance] in P.
  unfold canon in *. cbn [ignoreCase no_flags] in *.
  apply N.eqb_eq in C1, C2, C3, C4. subst c1 c2 c3 c4.
  inversion M; subst st; clear M. cbn [caps set_cap get_cap Nat.eqb] in G.
  inversion G; subst g. unfold substring. rewrite P, R.
  replace (S (S (S (S d))) + n - d) with (S (S (S (S n)))) by lia.
  cbn [firstn]. destruct (firstn n r4); reflexivity.
Qed.

Lemma simple_link_http text :
  startsWith (Simple.extractLink text) (lit "http") = true.
Proof.
  unfold Simple.extractLink.
  destruct (exec bare_url text) as [m|] eqn:E; [|reflexivity].
  destruct (mgroup 1 m) as [g|] eqn:G; [|reflexivity].
  eapply bare_url_group; eauto.
Qed.

Lemma simple_build_fields section r :
  Simple.build section = Return r ->
  link r = Simple.extractLink section
  /\ description r = Simple.extractDescription section
  /\ Simple.extractEligibility section = Return (eligibility r)
  /\ amount r = Simple.extractAmount section.
Proof.
  unfold Simple.build.
  destruct (Simple.extractName section); [|discriminate].
  destruct (Simple.extractEligibility section); [|discriminate].
  intros H. inversion H; subst. cbn. auto.
Qed.

End PipelineFacts.


(** ** Links and cuts *)

Module LinkFacts.

Import Spec Captures MatcherFacts StringFacts ExtractorFacts SplitFacts
  Extent ExtentFacts PipelineFacts Links.

Section Rich.

Variable URL_parses : jsstring -> bool.

(** [extractLink] returns the candidate of the first pattern whose
    candidate [new URL] takes; the patterns before it were refused. *)
Lemma extractLink_first_valid text :
  (exists k pattern l,
      nth_error Server.link_patterns k = Some pattern
      /\ link_candidate pattern text = Some l
      /\ URL_parses l = true
      /\ Server.extractLink URL_parses text = Some l
      /\ Forall (fun p => refused URL_parses text p = true)
                (firstn k Server.link_patterns))
  \/ (Server.extractLink URL_parses text = None
      /\ Forall (fun p => refused URL_parses text p = true)
                Server.link_patterns).
Proof.
  assert (B : forall p,
            match exec p text with
            | Some m =>
              let link := or_else (mgroup 1 m) (m0 m) in
              let link :=
                if negb (startsWith link (lit "http"))
                then lit "https://" ++ link else link in
              if URL_parses link then Some (Some link) else None
            | None => None
            end
            = match link_candidate p text with
              | Some l => if URL_parses l then Some (Some l) else None
              | None => None
              end).
  { intros p. unfold link_candidate. destruct (exec p text); reflexivity. }
  unfold Server.extractLink.
  rewrite (for_of_return_ext _ _ _ None B).
  match goal with
  | |- context [for_of_return ?ps ?body ?d] =>
    destruct (for_of_return_cases ps body d)
      as [[H1 H2]|(k & p & r & H1 & H2 & H3 & H4)]
  end.
  - right. split; [exact H1|].
    eapply Forall_impl; [|exact H2]. cbv beta. intros a Ha. unfold refused.
    destruct (link_candidate a text) as [l|]; [|reflexivity].
    destruct (URL_parses l); [discriminate|reflexivity].
  - left. destruct (link_candidate p text) as [l|] eqn:C; [|discriminate].
    destruct (URL_parses l) eqn:U; [|discriminate].
    inversion H2; subst r. exists k, p, l. repeat split; auto.
    eapply Forall_impl; [|exact H4]. cbv beta. intros a Ha. unfold refused.
    destruct (link_candidate a text) as [l'|]; [|reflexivity].
    destruct (URL_parses l'); [discriminate|reflexivity].
Qed.

End Rich.

(** The group of the bare URL pattern is the whole match. *)
Lemma bare_url_whole text m :
  exec bare_url text = Some m -> mgroup 1 m = Some (m0 m).
Proof.
  unfold exec, mgroup, m0. intros E.
  destruct (search (re_flags bare_url) (re_pattern bare_url) 0 None text)
    as [[i st]|] eqn:Hs; [|discriminate].
  inversion E; subst m; clear E. cbn [m_caps m_input m_index m_end].
  apply search_found in Hs. destruct Hs as (d & p' & -> & M).
  unfold match_here in M.
  change (re_pattern bare_url)
    with (Group 1 (seq [str "http"; opt (Chr (cu "s")); str "://";
                        plus Patterns.not_space_paren])) in M.
  cbn [rmatch] in M. apply rmatch_reaches in M.
  destruct M as (st' & M & _). inversion M; subst st. reflexivity.
Qed.

(** The simpler [extractLink] validates nothing: it returns the first match
    of the bare URL pattern as it stands, or the portal. *)
Lemma simple_link_unchecked text :
  match exec bare_url text with
  | Some m => Simple.extractLink text = m0 m
  | None => Simple.extractLink text = lit "https://scholarships.gov.in"
  end.
Proof.
  unfold Simple.extractLink. destruct (exec bare_url text) as [m|] eqn:E;
    [|reflexivity].
  rewrite (bare_url_whole text m E). reflexivity.
Qed.




End LinkFacts.

(** ** The properties of the parsing pipeline *)

Import Spec Captures MatcherFacts Orchestrator StringFacts ArticleFacts
  ExtractorFacts SplitFacts ValidatorFacts.

(** C1.  For every input string, both orchestrators, [parseScholarshipResponse]
    of server.js and [parseScholarships] of the simpler variant, return
    between 1 and 8 records: never none, never more than 8. *)
Theorem parse_returns_one_to_eight (URL_parses : jsstring -> bool)
  (text : jsstring) :
  1 <= List.length (Server.parseScholarshipResponse URL_parses (VString text)) <= 8
  /\ 1 <= List.length (Simple.parseScholarships (VString text)) <= 8.
Proof.
  rewrite rich_parse, simple_parse.
  split; apply firstn_8_bounds, or_fallback_nonempty; discriminate.
Qed.

(** C2, as the claim has it, fails: on the number 42, which the caller lets
    through, [split] throws; the throw is caught, and what comes back is
    the empty array, not the Fallback Catalog. *)
Lemma fault_returns_no_record :
  throws (Server.try_block http_host_ok (VNumber 42)) = true
  /\ Server.parseScholarshipResponse http_host_ok (VNumber 42) = []
  /\ Server.parseScholarshipResponse http_host_ok (VNumber 42) <> Server.fallback
  /\ throws (Simple.try_block (VNumber 42)) = true
  /\ Simple.parseScholarships (VNumber 42) = []
  /\ Simple.parseScholarships (VNumber 42) <> Simple.fallback.
Proof.
  repeat split; try reflexivity; discriminate.
Qed.

(** C2, amended.  The orchestrators never raise: they are total, and a throw
    inside the [try] block is caught.  A throw happens exactly when the
    input is not a string; the catch clause only logs, the Fallback Catalog
    is not substituted, and the result is the empty array. *)
Theorem fault_is_caught_without_fallback (URL_parses : jsstring -> bool)
  (v : value) :
  throws (Server.try_block URL_parses v) = negb (is_string v)
  /\ throws (Simple.try_block v) = negb (is_string v)
  /\ (is_string v = false ->
      Server.parseScholarshipResponse URL_parses v = []
      /\ Simple.parseScholarships v = []).
Proof.
  destruct v as [| |b|n|s]; try (repeat split; reflexivity).
  unfold throws. rewrite rich_try_block, simple_try_block.
  repeat split; discriminate.
Qed.

Lemma fault_is_caught_without_fallback_witness :
  is_string VNull = false
  /\ Server.parseScholarshipResponse http_host_ok VNull = []
  /\ Simple.parseScholarships VNull = [].
Proof.
  split; [reflexivity|].
  apply (proj2 (proj2 (fault_is_caught_without_fallback http_host_ok VNull))).
  reflexivity.
Defined.

(** C3.  Every record surfaced by either orchestrator, parsed or taken from
    the Fallback Catalog, has a non-empty name that contains one of the
    keywords scholarship, grant, fellowship, award, scheme, compared in lower
    case; a record both validators accept has such a name, so a candidate
    without one is never pushed. *)
Theorem surfaced_names_bear_keyword (URL_parses : jsstring -> bool)
  (v : value) :
  Forall named (Server.parseScholarshipResponse URL_parses v)
  /\ Forall named (Simple.parseScholarships v)
  /\ (forall r, Server.accepts r = true -> named r)
  /\ (forall r, Simple.accepts r = true -> named r).
Proof.
  split; [|split; [|split; [apply rich_accepts_named|apply simple_accepts_named]]].
  - destruct v as [| |b|n|s]; try constructor.
    rewrite rich_parse. apply Forall_firstn, Forall_or_fallback.
    + apply Forall_keep. intros x r H.
      apply rich_candidate_accepted in H. apply rich_accepts_named, H.
    + apply rich_fallback_named.
  - destruct v as [| |b|n|s]; try constructor.
    rewrite simple_parse. apply Forall_firstn, Forall_or_fallback.
    + apply Forall_keep. intros x r H.
      apply simple_candidate_accepted in H. apply simple_accepts_named, H.
    + apply simple_fallback_named.
Qed.

Lemma surfaced_names_bear_keyword_witness :
  Server.accepts (with_name (lit "National Merit Award")) = true
  /\ named (with_name (lit "National Merit Award")).
Proof.
  split; [reflexivity|].
  apply (proj1 (proj2 (proj2
           (surfaced_names_bear_keyword http_host_ok (VString filler))))).
  reflexivity.
Defined.

(** C4, as the claim has it, fails: the simpler variant takes the first
    bare link as it stands, and here surfaces [https://<], whose host the
    URL parser rejects. *)
Lemma simple_link_unvalidated :
  map link (Simple.parseScholarships (VString broken_link)) = [lit "https://<"]
  /\ http_host_ok (lit "https://<") = false.
Proof. split; vm_compute; reflexivity. Qed.

(** C4, amended.  In server.js every returned record has a link that
    [new URL] accepts, given that it accepts the two literal links of the
    code.  The link extractor puts the candidate of each pattern, in order,
    to [new URL]: it returns the first candidate that passes, a refused
    candidate sends it on to the next pattern, and when no pattern gives a
    candidate that passes it returns nothing and the link of the record is
    the portal's.  The simpler variant validates nothing: its extractor
    returns the first match of the bare URL pattern as it stands, or the
    portal's link when there is none. *)
Theorem rich_links_validated (URL_parses : jsstring -> bool) (v : value)
  (text : jsstring) :
  URL_parses (lit "https://scholarships.gov.in") = true ->
  URL_parses (lit "https://online-inspire.gov.in") = true ->
  Forall (fun r => URL_parses (link r) = true)
         (Server.parseScholarshipResponse URL_parses v)
  /\ ((exists k pattern l,
          nth_error Server.link_patterns k = Some pattern
          /\ Links.link_candidate pattern text = Some l
          /\ URL_parses l = true
          /\ Server.extractLink URL_parses text = Some l
          /\ Forall (fun p => Links.refused URL_parses text p = true)
                    (firstn k Server.link_patterns))
      \/ (Server.extractLink URL_parses text = None
          /\ Forall (fun p => Links.refused URL_parses text p = true)
                    Server.link_patterns
          /\ link (Server.extractScholarshipInfo URL_parses text)
             = lit "https://scholarships.gov.in"))
  /\ match exec bare_url text with
     | Some m => Simple.extractLink text = m0 m
     | None => Simple.extractLink text = lit "https://scholarships.gov.in"
     end.
Proof.
  intros Hp Hi. split; [|split].
  - destruct v as [| |b|n|s]; try constructor.
    rewrite rich_parse. apply Forall_firstn, Forall_or_fallback.
    + apply Forall_keep. intros x r H.
      apply rich_candidate_accepted in H. destruct H as (-> & _).
      apply link_validated. exact Hp.
    + unfold Server.fallback.
      constructor; [exact Hp|]. constructor; [exact Hp|].
      constructor; [exact Hp|]. constructor; [exact Hi|constructor].
  - destruct (LinkFacts.extractLink_first_valid URL_parses text)
      as [H|[E F]]; [left; exact H|].
    right. split; [exact E|]. split; [exact F|].
    unfold Server.extractScholarshipInfo. cbn [link]. rewrite E. reflexivity.
  - apply LinkFacts.simple_link_unchecked.
Qed.

Lemma rich_links_validated_witness :
  Forall (fun r => http_host_ok (link r) = true)
         (Server.parseScholarshipResponse http_host_ok (VString Links.two_links))
  /\ ((exists k pattern l,
          nth_error Server.link_patterns k = Some pattern
          /\ Links.link_candidate pattern Links.two_links = Some l
          /\ http_host_ok l = true
          /\ Server.extractLink http_host_ok Links.two_links = Some l
          /\ Forall (fun p => Links.refused http_host_ok Links.two_links p = true)
                    (firstn k Server.link_patterns))
      \/ (Server.extractLink http_host_ok Links.two_links = None
          /\ Forall (fun p => Links.refused http_host_ok Links.two_links p = true)
                    Server.link_patterns
          /\ link (Server.extractScholarshipInfo http_host_ok Links.two_links)
             = lit "https://scholarships.gov.in"))
  /\ match exec bare_url Links.two_links with
     | Some m => Simple.extractLink Links.two_links = m0 m
     | None =>
       Simple.extractLink Links.two_links = lit "https://scholarships.gov.in"
     end.
Proof.
  apply (rich_links_validated http_host_ok (VString Links.two_links)
           Links.two_links);
    reflexivity.
Defined.

(** On a text whose bare link is refused and whose labelled domain is not,
    the search goes on: server.js returns the second pattern's candidate,
    the simpler variant the refused link. *)
Lemma refused_link_sends_on :
  Links.link_candidate Patterns.bare_url Links.two_links = Some (lit "https://<")
  /\ http_host_ok (lit "https://<") = false
  /\ Server.extractLink http_host_ok Links.two_links
     = Some (lit "https://www.example.org")
  /\ Simple.extractLink Links.two_links = lit "https://<".
Proof. repeat split; vm_compute; reflexivity. Qed.

(** C5 is what the code of server.js does, and what the simpler variant
    misses: on the filler of the specification's own scenario, one segment of
    86 characters without a keyword, its name extractor falls back on
    "Educational Grant", which passes the validator, and the result is that
    one record instead of the Fallback Catalog. *)
Theorem filler_yields_placeholder_record :
  Simple.parseScholarships (VString filler)
  = [ {| name := lit "Educational Grant";
         amount := lit "Amount varies";
         eligibility := lit "Check official website";
         deadline := lit "Check website";
         description := lit "Here is some general advice about funding your education.";
         link := lit "https://scholarships.gov.in" |} ]
  /\ Simple.parseScholarships (VString filler) <> Simple.fallback
  /\ Server.parseScholarshipResponse http_host_ok (VString filler)
     = Server.fallback.
Proof.
  split; [vm_compute; reflexivity|].
  split; [vm_compute; discriminate|].
  vm_compute; reflexivity.
Qed.

(** C6, as the claim has it, fails: the bounds of the code are strict
    (a name of 8 characters, or of 200, is refused by server.js, one of 10
    by the simpler variant), and the simpler variant has no upper bound and
    knows three keywords only. *)
Lemma validator_bounds_strict :
  claimed_accepts 8 true (with_name (lit "My Award")) = true
  /\ Server.accepts (with_name (lit "My Award")) = false
  /\ claimed_accepts 8 true (with_name (repeat (cu "x") 195 ++ lit "award")) = true
  /\ Server.accepts (with_name (repeat (cu "x") 195 ++ lit "award")) = false
  /\ claimed_accepts 10 false (with_name (lit "Fellowship")) = true
  /\ Simple.accepts (with_name (lit "Fellowship")) = false
  /\ claimed_accepts 10 false (with_name (lit "Research Fellowship")) = true
  /\ Simple.accepts (with_name (lit "Research Fellowship")) = false
  /\ claimed_accepts 10 false (with_name (repeat (cu "x") 196 ++ lit "award")) = false
  /\ Simple.accepts (with_name (repeat (cu "x") 196 ++ lit "award")) = true.
Proof. repeat split; vm_compute; reflexivity. Qed.

(** C6, amended.  The validator of server.js accepts a candidate exactly
    when its name is present, longer than 8 and shorter than 200 code units,
    holds neither "here are" nor "following" in lower case, and holds one of
    scholarship, grant, fellowship, award, scheme; the validator of the
    simpler variant exactly when the name is present, longer than 10, and
    holds one of scholarship, grant, award. *)
Theorem validator_accepts_iff (r : Scholarship) :
  (Server.accepts r = true <->
   name r <> [] /\ 8 < List.length (name r) < 200
   /\ includes (toLowerCase (name r)) (lit "here are") = false
   /\ includes (toLowerCase (name r)) (lit "following") = false
   /\ bears keywords (name r))
  /\ (Simple.accepts r = true <->
      name r <> [] /\ 10 < List.length (name r)
      /\ bears (map lit ["scholarship"; "grant"; "award"]%string) (name r)).
Proof. split; [apply rich_accepts_spec|apply simple_accepts_spec]. Qed.

Lemma validator_accepts_iff_witness :
  Server.accepts (with_name (lit "National Merit Award")) = true
  /\ 8 < List.length (name (with_name (lit "National Merit Award"))) < 200.
Proof.
  split; [reflexivity|].
  apply (proj1 (proj1 (validator_accepts_iff
                         (with_name (lit "National Merit Award"))))).
  reflexivity.
Defined.

(** C7, as the claim has it, fails: a name of exactly 10 code units is
    refused by server.js; a first match that is refused does not end the
    search, the later patterns are tried; the simpler variant strips no
    article. *)
Lemma name_extractor_differs :
  claimed_name_rich (lit "1. Tiny Grant") = lit "Tiny Grant"
  /\ Server.extractScholarshipName (lit "1. Tiny Grant")
     = lit "Educational Opportunity"
  /\ claimed_name_rich (lit "1. Big Grant" ++ Patterns.nl :: lit "National Merit Scholarship")
     = lit "Educational Opportunity"
  /\ Server.extractScholarshipName
       (lit "1. Big Grant" ++ Patterns.nl :: lit "National Merit Scholarship")
     = lit "Big Grant" ++ Patterns.nl :: lit "National Merit Scholarship"
  /\ claimed_name_simple (lit "The Merit Scholarship is open")
     = lit "Merit Scholarship"
  /\ Simple.extractName (lit "The Merit Scholarship is open")
     = Return (lit "The Merit Scholarship").
Proof. repeat split; vm_compute; reflexivity. Qed.

(** C7, amended.  [extractScholarshipName] goes through its patterns in
    order; a pattern that matches with a name proposes it trimmed and
    without a leading "The " or "A " (in any case); the first proposal
    longer than 10 and shorter than 150 code units is returned, a refused one
    sends the search on to the next pattern, and "Educational Opportunity"
    is returned when no pattern's proposal is accepted.  [extractName] of the
    simpler variant returns the trimmed name of the first pattern that
    matches, article included and whatever its length, "Educational Grant"
    when none matches, and it never throws. *)
Theorem name_extractor_first_offer (text : jsstring) :
  ((exists k pattern n,
       nth_error Server.name_patterns k = Some pattern
       /\ proposal pattern text = Some n /\ in_bounds n = true
       /\ Server.extractScholarshipName text = n
       /\ Forall (fun p => offer p text = None)
                 (firstn k Server.name_patterns))
   \/ (Server.extractScholarshipName text = lit "Educational Opportunity"
       /\ Forall (fun p => offer p text = None) Server.name_patterns))
  /\ ((exists k pattern m g,
          nth_error Simple.name_patterns k = Some pattern
          /\ exec pattern text = Some m /\ mgroup 1 m = Some g
          /\ Simple.extractName text = Return (trim g)
          /\ Forall (fun p => exec p text = None)
                    (firstn k Simple.name_patterns))
      \/ (Simple.extractName text = Return (lit "Educational Grant")
          /\ Forall (fun p => exec p text = None) Simple.name_patterns)).
Proof.
  split.
  - rewrite extractScholarshipName_offers.
    destruct (for_of_return_cases Server.name_patterns (fun p => offer p text)
                (lit "Educational Opportunity"))
      as [[H1 H2]|(k & p & n & H1 & H2 & H3 & H4)].
    + right. auto.
    + left. exists k, p, n. apply offer_proposal in H2. tauto.
  - unfold Simple.extractName.
    match goal with
    | |- context [for_of_return ?ps ?body ?d] =>
      destruct (for_of_return_cases ps body d)
        as [[H1 H2]|(k & p & r & H1 & H2 & H3 & H4)]
    end.
    + right. split; [exact H1|].
      eapply Forall_impl; [|exact H2]. cbv beta. intros a Ha.
      destruct (exec a text); [discriminate|reflexivity].
    + left. destruct (exec p text) as [m|] eqn:E; [|discriminate].
      assert (Hs : sets 1 (re_pattern p) = true).
      { apply nth_error_In in H1. cbn in H1.
        destruct H1 as [<-|[<-|[]]]; reflexivity. }
      destruct (exec_group 1 p text m Hs E) as (g & G).
      exists k, p, m, g. repeat split; auto.
      * rewrite H3. rewrite G in H2. inversion H2. reflexivity.
      * eapply Forall_impl; [|exact H4]. cbv beta. intros a Ha.
        destruct (exec a text); [discriminate|reflexivity].
Qed.



(** C9, as the claim has it, fails: the loop of the simpler variant has no
    bound on the accepted count, and on twelve well-formed entries it holds
    twelve records when the scan ends. *)
Lemma simple_scans_past_ten :
  List.length (snd (Simple.try_block (VString twelve) [])) = 12.
Proof. vm_compute. reflexivity. Qed.

(** C9, amended.  Both orchestrators go through the segments in document
    order and return the first 8 accepted candidates (the Fallback Catalog
    when there is none), so at most 8 records.  The loop of server.js stops
    once it holds 10 accepted candidates; the loop of the simpler variant
    scans every segment. *)
Theorem first_eight_in_document_order (URL_parses : jsstring -> bool)
  (text : jsstring) :
  snd (Server.try_block URL_parses (VString text) [])
  = or_fallback (firstn 10 (rich_accepted URL_parses text)) Server.fallback
  /\ Server.parseScholarshipResponse URL_parses (VString text)
     = firstn 8 (or_fallback (rich_accepted URL_parses text) Server.fallback)
  /\ snd (Simple.try_block (VString text) [])
     = or_fallback (simple_accepted text) Simple.fallback
  /\ Simple.parseScholarships (VString text)
     = firstn 8 (or_fallback (simple_accepted text) Simple.fallback)
  /\ List.length (Server.parseScholarshipResponse URL_parses (VString text)) <= 8
  /\ List.length (Simple.parseScholarships (VString text)) <= 8.
Proof.
  rewrite rich_try_block, simple_try_block, rich_parse, simple_parse.
  repeat split; rewrite length_firstn; lia.
Qed.

(** C10, as the claim has it, fails in one word: the placeholder
    "Educational Grant" has 17 code units, not 16. *)
Lemma placeholder_has_17_characters :
  Simple.extractName blank = Return (lit "Educational Grant")
  /\ List.length (lit "Educational Grant") <> 16.
Proof. split; vm_compute; [reflexivity|discriminate]. Qed.

(** C10, amended.  In the simpler variant a segment of at least 50 code
    units in which no name pattern matches gets the name "Educational
    Grant", of 17 code units and with the keyword grant in it, which the
    validator accepts: the segment always adds a record to the array. *)
Theorem placeholder_segment_accepted (section : jsstring) :
  50 <= List.length section ->
  Forall (fun p => exec p section = None) Simple.name_patterns ->
  exists r,
    Simple.build section = Return r
    /\ name r = lit "Educational Grant"
    /\ List.length (name r) = 17
    /\ Simple.accepts r = true
    /\ forall arr, Simple.visit section arr = (Return tt, arr ++ [r]).
Proof.
  intros Hlen Hno.
  assert (En : Simple.extractName section = Return (lit "Educational Grant")).
  { unfold Simple.extractName.
    match goal with
    | |- for_of_return ?ps ?body ?d = _ =>
      destruct (for_of_return_cases ps body d)
        as [[H1 H2]|(k & p & r & H1 & H2 & H3 & H4)]
    end.
    - exact H1.
    - apply nth_error_In in H1. rewrite Forall_forall in Hno.
      rewrite (Hno p H1) in H2. discriminate. }
  destruct (extractEligibility_returns section) as (e & Ee).
  eexists. split.
  - unfold Simple.build. rewrite En, Ee. reflexivity.
  - split; [reflexivity|]. split; [reflexivity|]. split; [reflexivity|].
    intros arr. unfold Simple.visit, bind, lift.
    apply Nat.ltb_ge in Hlen. rewrite Hlen.
    unfold Simple.build. rewrite En, Ee. reflexivity.
Qed.

Lemma placeholder_segment_accepted_witness :
  exists r,
    Simple.build blank = Return r
    /\ name r = lit "Educational Grant"
    /\ List.length (name r) = 17
    /\ Simple.accepts r = true
    /\ forall arr, Simple.visit blank arr = (Return tt, arr ++ [r]).
Proof.
  apply (placeholder_segment_accepted blank).
  - vm_compute. repeat constructor.
  - repeat constructor.
Defined.

Import PipelineFacts Extent ExtentFacts.

(** X1.  [parseScholarshipResponse] of server.js gives the Fallback Catalog
    for every text shorter than 100 code units: no segment of it reaches the
    minimum length. *)
Theorem short_text_yields_catalog (URL_parses : jsstring -> bool)
  (text : jsstring) :
  List.length text < 100 ->
  Server.parseScholarshipResponse URL_parses (VString text) = Server.fallback.
Proof.
  intros H. apply ValidatorFacts.rich_fallback_without_keyword.
  eapply Forall_impl; [|apply (split_short Server.splitter text)].
  cbv beta. intros s Hs. left. pose proof (trim_length s). lia.
Qed.

Lemma short_text_yields_catalog_witness :
  Server.parseScholarshipResponse http_host_ok (VString Spec.filler)
  = Server.fallback.
Proof.
  apply (short_text_yields_catalog http_host_ok Spec.filler).
  vm_compute. repeat constructor.
Defined.

(** X2.  [parseScholarships] of the simpler variant gives its Fallback
    Catalog for every text shorter than 50 code units. *)
Theorem short_text_yields_simple_catalog (text : jsstring) :
  List.length text < 50 ->
  Simple.parseScholarships (VString text) = Simple.fallback.
Proof.
  intros H. rewrite Orchestrator.simple_parse, simple_accepted_none.
  - reflexivity.
  - eapply Forall_impl; [|apply (split_short Simple.splitter text)].
    cbv beta. intros s Hs. lia.
Qed.

Lemma short_text_yields_simple_catalog_witness :
  Simple.parseScholarships (VString (lit "1. Merit Scholarship for all students"))
  = Simple.fallback.
Proof.
  apply (short_text_yields_simple_catalog
           (lit "1. Merit Scholarship for all students")).
  vm_compute. repeat constructor.
Defined.

(** X3.  Every record that [parseScholarshipResponse] of server.js returns,
    for any input, has a name longer than 10 and shorter than 150 code
    units; every record that [parseScholarships] returns has a name longer
    than 10. *)
Theorem surfaced_names_bounded (URL_parses : jsstring -> bool) (v : value) :
  Forall (fun r => 10 < List.length (name r) < 150)
         (Server.parseScholarshipResponse URL_parses v)
  /\ Forall (fun r => 10 < List.length (name r)) (Simple.parseScholarships v).
Proof.
  split.
  - destruct v as [| |b|n|s]; try constructor.
    rewrite Orchestrator.rich_parse.
    apply ValidatorFacts.Forall_firstn, ValidatorFacts.Forall_or_fallback.
    + apply ValidatorFacts.Forall_keep. intros x r H.
      apply ValidatorFacts.rich_candidate_accepted in H. destruct H as (-> & _).
      apply extractScholarshipName_bounds.
    + unfold Server.fallback.
      repeat (constructor; [vm_compute; split; repeat constructor|]).
      constructor.
  - destruct v as [| |b|n|s]; try constructor.
    rewrite Orchestrator.simple_parse.
    apply ValidatorFacts.Forall_firstn, ValidatorFacts.Forall_or_fallback.
    + apply ValidatorFacts.Forall_keep. intros x r H.
      apply ValidatorFacts.simple_candidate_accepted in H.
      destruct H as (_ & _ & H).
      apply ValidatorFacts.simple_accepts_spec in H. tauto.
    + unfold Simple.fallback.
      repeat (constructor; [vm_compute; repeat constructor|]).
      constructor.
Qed.

(** X4.  Every record returned by either orchestrator has a link that
    starts with [http]: in server.js a bare domain gets the prefix
    [https://], in the simpler variant only a match of the bare URL pattern
    is taken, and the default and catalog links are such. *)
Theorem surfaced_links_start_with_http (URL_parses : jsstring -> bool)
  (v : value) :
  Forall (fun r => startsWith (link r) (lit "http") = true)
         (Server.parseScholarshipResponse URL_parses v)
  /\ Forall (fun r => startsWith (link r) (lit "http") = true)
            (Simple.parseScholarships v).
Proof.
  split.
  - destruct v as [| |b|n|s]; try constructor.
    rewrite Orchestrator.rich_parse.
    apply ValidatorFacts.Forall_firstn, ValidatorFacts.Forall_or_fallback.
    + apply ValidatorFacts.Forall_keep. intros x r H.
      apply ValidatorFacts.rich_candidate_accepted in H. destruct H as (-> & _).
      apply rich_link_http.
    + unfold Server.fallback. repeat (constructor; [reflexivity|]). constructor.
  - destruct v as [| |b|n|s]; try constructor.
    rewrite Orchestrator.simple_parse.
    apply ValidatorFacts.Forall_firstn, ValidatorFacts.Forall_or_fallback.
    + apply ValidatorFacts.Forall_keep. intros x r H.
      apply ValidatorFacts.simple_candidate_accepted in H.
      destruct H as (H & _). apply simple_build_fields in H.
      destruct H as (-> & _). apply simple_link_http.
    + unfold Simple.fallback. repeat (constructor; [reflexivity|]). constructor.
Qed.

Module FieldFacts.

Import Spec Captures MatcherFacts Orchestrator StringFacts ExtractorFacts
  Extent ExtentFacts PipelineFacts.

Lemma forallb_nth {A} (f : A -> bool) l k x :
  forallb f l = true -> nth_error l k = Some x -> f x = true.
Proof.
  intros H N. apply nth_error_In in N. rewrite forallb_forall in H. auto.
Qed.

(** *** Eligibility *)

Lemma rich_eligibility_bounds text :
  20 < List.length (Server.extractEligibility text) <= 150.
Proof.
  unfold Server.extractEligibility.
  match goal with
  | |- context [for_of_return ?ps ?body ?d] =>
    destruct (for_of_return_cases ps body d)
      as [[H _]|(k & p & r & N & H & -> & _)]
  end.
  - rewrite H. vm_compute. split; repeat constructor.
  - assert (W : group_width_le 150 p = true).
    { eapply forallb_nth; [|exact N]. vm_compute. reflexivity. }
    destruct (exec p text) as [m|] eqn:E; [|discriminate].
    destruct (mgroup 1 m) as [g|] eqn:G; [|discriminate].
    destruct (truthy g); [|discriminate]. cbv zeta in H.
    destruct (20 <? List.length (trim g)) eqn:L; [|discriminate].
    inversion H; subst r. apply Nat.ltb_lt in L.
    pose proof (exec_group_width 150 p text m g W E G).
    pose proof (trim_length g). lia.
Qed.

Lemma simple_eligibility_bounds text :
  exists e, Simple.extractEligibility text = Return e /\ List.length e <= 108.
Proof.
  unfold Simple.extractEligibility.
  match goal with
  | |- context [for_of_return ?ps ?body ?d] =>
    destruct (for_of_return_cases ps body d)
      as [[H _]|(k & p & r & N & H & -> & _)]
  end.
  - rewrite H. eexists. split; [reflexivity|]. vm_compute. repeat constructor.
  - assert (W : group_width_le 108 p = true).
    { eapply forallb_nth; [|exact N]. vm_compute. reflexivity. }
    destruct (exec p text) as [m|] eqn:E; [|discriminate].
    destruct (mgroup 1 m) as [g|] eqn:G.
    + inversion H; subst r. exists (trim g). split; [reflexivity|].
      pose proof (exec_group_width 108 p text m g W E G).
      pose proof (trim_length g). lia.
    + exfalso. unfold group_width_le in W.
      destruct (tail_group (re_pattern p)) as [body|] eqn:T; [|discriminate].
      destruct (maxw body) as [w|] eqn:Wb; [|discriminate].
      unfold exec in E.
      destruct (search (re_flags p) (re_pattern p) 0 None text)
        as [[i st]|] eqn:Hs; [|discriminate].
      inversion E; subst m.
      destruct (search_tail_group_width _ _ body w T Wb text 0 None i st Hs)
        as (a & b & C & _).
      unfold mgroup in G. cbn [m_caps] in G. rewrite C in G. discriminate.
Qed.

(** *** Description *)

Lemma filter_Forall {A} (f : A -> bool) l : Forall (fun x => f x = true) (filter f l).
Proof.
  apply Forall_forall. intros x H. apply filter_In in H. tauto.
Qed.

Lemma last_app_dot (s : jsstring) : last (s ++ lit ".") 0%N = cu ".".
Proof. change (lit ".") with [cu "."]. apply last_last. Qed.

Lemma rich_description_bounds text :
  1 <= List.length (Server.extractDescription text) <= 401
  /\ last (Server.extractDescription text) 0%N = cu ".".
Proof.
  unfold Server.extractDescription. cbv zeta.
  match goal with
  | |- context [filter ?f ?l] =>
    pose proof (filter_Forall f l) as F; destruct (filter f l) as [|a [|b more]]
  end.
  - vm_compute. repeat split; repeat constructor.
  - unfold slice0. cbn [firstn List.length Nat.ltb Nat.leb join].
    inversion F as [|? ? Ha _]; subst.
    rewrite !andb_true_iff in Ha. destruct Ha as ((((_ & Ha) & _) & _) & _).
    apply Nat.ltb_lt in Ha. pose proof (trim_length a).
    split; [|apply last_app_dot].
    rewrite length_app. change (List.length (lit ".")) with 1. lia.
  - unfold slice0. cbn [firstn List.length Nat.ltb Nat.leb join].
    inversion F as [|? ? Ha F']; subst. inversion F' as [|? ? Hb _]; subst.
    rewrite !andb_true_iff in Ha, Hb.
    destruct Ha as ((((_ & Ha) & _) & _) & _).
    destruct Hb as ((((_ & Hb) & _) & _) & _).
    apply Nat.ltb_lt in Ha, Hb.
    pose proof (trim_length (a ++ lit ". " ++ b)) as T.
    rewrite !length_app in T. change (List.length (lit ". ")) with 2 in T.
    split; [|apply last_app_dot].
    rewrite length_app. change (List.length (lit ".")) with 1. lia.
Qed.

Lemma simple_description_bounds text :
  1 <= List.length (Simple.extractDescription text) <= 150
  /\ last (Simple.extractDescription text) 0%N = cu ".".
Proof.
  unfold Simple.extractDescription. cbv zeta.
  match goal with
  | |- context [filter ?f ?l] =>
    pose proof (filter_Forall f l) as F; destruct (filter f l) as [|a more]
  end.
  - vm_compute. repeat split; repeat constructor.
  - unfold slice0. cbn [firstn].
    inversion F as [|? ? Ha _]; subst.
    rewrite !andb_true_iff in Ha. destruct Ha as (_ & Ha).
    apply Nat.ltb_lt in Ha. pose proof (trim_length a).
    split; [|apply last_app_dot].
    rewrite length_app. change (List.length (lit ".")) with 1. lia.
Qed.

(** *** Amount *)

Lemma lower_not_space c : is_lower c = true -> is_space c = false.
Proof.
  unfold is_lower, is_space. intros H. apply andb_true_iff in H.
  destruct H as [H1 H2]. apply N.leb_le in H1, H2.
  repeat match goal with
  | |- context [(?a =? ?b)%N] =>
    let E := fresh in destruct (N.eqb_spec a b) as [E|E]; [lia|]
  | |- context [(?a <=? ?b)%N] =>
    let E := fresh in destruct (N.leb_spec a b) as [E|E]; try lia
  end; reflexivity.
Qed.

Lemma canon_visible fl c c0 :
  visible c0 = true -> (canon fl c =? canon fl c0)%N = true -> is_space c = false.
Proof.
  unfold visible, canon. intros V E. apply andb_true_iff in V.
  destruct V as [V1 V2]. apply negb_true_iff in V1, V2. apply N.eqb_eq in E.
  destruct (ignoreCase fl).
  - destruct (is_space c) eqn:Sp; [|reflexivity].
    unfold upper_cu at 1 in E. destruct (is_lower c) eqn:L.
    + apply lower_not_space in L. congruence.
    + subst c. congruence.
  - subst c. exact V1.
Qed.

(** A pattern that starts with a literal code unit matches where that code
    unit is, and takes it. *)
Lemma first_chr_taken fl r : forall c0 k st res,
  first_chr r = Some c0 -> rmatch fl r k st = Some res ->
  exists c t st',
    rest st = c :: t /\ (canon fl c =? canon fl c0)%N = true
    /\ k st' = Some res /\ pos st < pos st'.
Proof.
  induction r; intros c0 k st res F H; cbn [first_chr] in F; try discriminate;
    cbn [rmatch] in H.
  - inversion F; subst c0. unfold step_if in H.
    destruct (rest st) as [|x t] eqn:R; [discriminate|].
    destruct (canon fl x =? canon fl c)%N eqn:E; [|discriminate].
    exists x, t, (advance st x t). cbn [pos advance]. repeat split; auto.
  - destruct (IHr1 c0 _ st res F H) as (c & t & st1 & R & E & H1 & P1).
    apply rmatch_reaches in H1. destruct H1 as (st2 & H2 & (n & _ & P2 & _)).
    exists c, t, st2. repeat split; auto. lia.
  - destruct (IHr c0 _ st res F H) as (c & t & st1 & R & E & H1 & P1).
    exists c, t, (set_cap n (pos st) (pos st1) st1). repeat split; auto.
Qed.

Lemma trimStart_keeps (x : jsstring) c :
  is_space c = false -> trimStart (x ++ [c]) <> [].
Proof.
  intros H. induction x as [|y x IH]; simpl.
  - rewrite H. discriminate.
  - destruct (is_space y); [exact IH|discriminate].
Qed.

Lemma trim_visible c t : is_space c = false -> trim (c :: t) <> [].
Proof.
  intros H. unfold trim. cbn [trimStart]. rewrite H. unfold trimEnd.
  cbn [rev]. intros E. apply (f_equal (@rev code_unit)) in E.
  rewrite rev_involutive in E. cbn [rev] in E.
  eapply trimStart_keeps; eauto.
Qed.

(** The text of a match of such a pattern does not trim to nothing. *)
Lemma exec_visible p text m :
  starts_visible p = true -> exec p text = Some m -> trim (m0 m) <> [].
Proof.
  unfold starts_visible, exec, m0. intros V E.
  destruct (first_chr (re_pattern p)) as [c0|] eqn:F; [|discriminate].
  destruct (search (re_flags p) (re_pattern p) 0 None text)
    as [[i st]|] eqn:Hs; [|discriminate].
  inversion E; subst m; clear E. cbn [m_input m_index m_end].
  apply search_found in Hs. destruct Hs as (d & p' & -> & M).
  cbn [Nat.add]. unfold match_here in M.
  destruct (first_chr_taken _ _ c0 _ _ _ F M) as (c & t & st' & R & E & K & P).
  inversion K; subst st'. cbn [rest pos] in R, P.
  unfold substring. rewrite R.
  destruct (pos st - d) as [|w] eqn:W; [lia|]. cbn [firstn].
  apply trim_visible. eapply canon_visible; eauto.
Qed.

Lemma amount_from_match (patterns : list regexp) (text d : jsstring) :
  forallb starts_visible patterns = true -> d <> [] ->
  let result :=
    for_of_return patterns
      (fun pattern =>
         match exec pattern text with
         | Some m => Some (trim (m0 m))
         | None => None
         end) d in
  result <> [] /\ (result = d \/ infix result text).
Proof.
  intros V D result. subst result.
  match goal with
  | |- context [for_of_return ?ps ?body ?d] =>
    destruct (for_of_return_cases ps body d)
      as [[H _]|(k & p & r & N & H & -> & _)]
  end.
  - rewrite H. auto.
  - destruct (exec p text) as [m|] eqn:E; [|discriminate].
    inversion H; subst r. split.
    + eapply exec_visible; eauto. eapply forallb_nth; eauto.
    + right. eapply infix_trans; [apply infix_trim|].
      unfold m0. rewrite (exec_input p text m E). apply infix_substring.
Qed.

End FieldFacts.

Import FieldFacts.

(** X5.  The eligibility text that [extractEligibility] of server.js returns
    is longer than 20 and at most 150 code units, for every segment; the one
    of the simpler variant never throws and returns at most 108 code
    units. *)
Theorem eligibility_bounded (text : jsstring) :
  20 < List.length (Server.extractEligibility text) <= 150
  /\ exists e,
       Simple.extractEligibility text = Return e /\ List.length e <= 108.
Proof.
  split; [apply rich_eligibility_bounds|apply simple_eligibility_bounds].
Qed.

(** X6.  [extractDescription] always returns a text that ends with a full
    stop: at most 401 code units in server.js (two sentences shorter than
    200, their separator and the stop), at most 150 in the simpler
    variant. *)
Theorem description_bounded (text : jsstring) :
  (1 <= List.length (Server.extractDescription text) <= 401
   /\ last (Server.extractDescription text) 0%N = cu ".")
  /\ (1 <= List.length (Simple.extractDescription text) <= 150
      /\ last (Simple.extractDescription text) 0%N = cu ".").
Proof.
  split; [apply rich_description_bounds|apply simple_description_bounds].
Qed.

(** X7.  [extractAmount] never returns the empty string, in either variant:
    it returns "Amount varies" or a trimmed piece of the segment that begins
    with the rupee sign or the first letter of its label. *)
Theorem amount_never_empty (text : jsstring) :
  (Server.extractAmount text <> []
   /\ (Server.extractAmount text = lit "Amount varies"
       \/ infix (Server.extractAmount text) text))
  /\ (Simple.extractAmount text <> []
      /\ (Simple.extractAmount text = lit "Amount varies"
          \/ infix (Simple.extractAmount text) text)).
Proof.
  split.
  - apply (amount_from_match Server.amount_patterns text (lit "Amount varies"));
      [vm_compute; reflexivity|discriminate].
  - apply (amount_from_match Simple.amount_patterns text (lit "Amount varies"));
      [vm_compute; reflexivity|discriminate].
Qed.

(** ** The query and the handler of server.js *)

Module AppFacts.

Import Spec StringFacts FieldFacts ServerApp.

Lemma infix_here (s post : jsstring) : infix s (s ++ post).
Proof. exists [], post. reflexivity. Qed.

Lemma infix_skip (a x b : jsstring) : infix a b -> infix a (x ++ b).
Proof.
  intros (p & q & ->). exists (x ++ p), q. rewrite <- app_assoc. reflexivity.
Qed.

Lemma given_some x s : given x = Some s -> x = Some s /\ s <> [].
Proof.
  unfold given. destruct x as [t|]; [|discriminate].
  destruct (truthy t) eqn:T; [|discriminate].
  intros H. inversion H; subst. split; [reflexivity|].
  apply truthy_nonempty. exact T.
Qed.

Lemma trimStart_cases s :
  (trimStart s = [] /\ all_space s = true)
  \/ exists c t, trimStart s = c :: t /\ is_space c = false /\ all_space s = false.
Proof.
  induction s as [|x s IH]; simpl.
  - left. auto.
  - destruct (is_space x) eqn:E; simpl.
    + exact IH.
    + right. exists x, s. auto.
Qed.

(** [trim] leaves nothing exactly of a string of white space. *)
Lemma trim_empty_iff s : Nat.eqb (List.length (trim s)) 0 = all_space s.
Proof.
  unfold trim. destruct (trimStart_cases s) as [[E A]|(c & t & E & Hc & A)];
    rewrite E, A.
  - reflexivity.
  - pose proof (trim_visible c t Hc) as N. unfold trim in N.
    cbn [trimStart] in N. rewrite Hc in N.
    destruct (trimEnd (c :: t)); [congruence|reflexivity].
Qed.

Lemma blank_missing v : missing v = true -> blank v = Ok true.
Proof.
  unfold blank, missing. destruct v as [| |b|n|s]; simpl; try (intros ->; reflexivity);
    try reflexivity.
  intros A. destruct (truthy s); [|reflexivity].
  cbn [negb and_then]. rewrite trim_empty_iff, A. reflexivity.
Qed.

Lemma blank_filled v : filled v = true -> blank v = Ok false.
Proof.
  unfold blank, filled. destruct v as [| |b|n|s]; try discriminate.
  intros A. apply negb_true_iff in A. cbn [falsy].
  destruct (truthy s) eqn:T.
  - cbn [negb method_trim and_then]. rewrite trim_empty_iff, A. reflexivity.
  - destruct s; [discriminate A|discriminate T].
Qed.

(** The three ways of the check: it passes, it fails, or it throws. *)
Lemma blank_cases v :
  (blank v = Ok true /\ missing v = true)
  \/ (blank v = Ok false /\ filled v = true)
  \/ (blank v = Raise plain_error /\ falsy v = false /\ is_string v = false).
Proof.
  destruct (missing v) eqn:M.
  - left. split; [apply blank_missing; exact M|reflexivity].
  - destruct (filled v) eqn:F.
    + right. left. split; [apply blank_filled; exact F|reflexivity].
    + right. right. destruct v as [| |b|n|s]; try discriminate.
      * destruct b; [|discriminate]. auto.
      * unfold blank. simpl in *. rewrite M. auto.
      * simpl in *. rewrite M in F. discriminate.
Qed.

Lemma parse_length_le URL v :
  List.length (Server.parseScholarshipResponse URL v) <= 8.
Proof.
  unfold Server.parseScholarshipResponse, try_catch_then, slice0.
  rewrite length_firstn. lia.
Qed.

Lemma on_error_plain :
  on_error plain_error
  = Failure 500 (lit "Failed to search scholarships. Please try again.").
Proof. reflexivity. Qed.

Lemma on_error_known e : known_status (status_of (on_error e)) = true.
Proof.
  unfold on_error.
  destruct (_ || _); [reflexivity|].
  destruct (response_is e 401); [reflexivity|].
  destruct (response_is e 429); [reflexivity|].
  destruct (response_is e 400); reflexivity.
Qed.

Lemma profile_filled body :
  filled (b_collegeName body) = true -> filled (b_course body) = true ->
  profile body = Raise plain_error
  \/ exists p, profile body = Ok p.
Proof.
  intros Hc Ho. unfold profile.
  destruct (b_collegeName body); try discriminate.
  destruct (b_course body); try discriminate. cbn [method_trim and_then].
  destruct (b_location body); cbn [optional_trim and_then]; auto;
  destruct (b_gpa body); cbn [optional_trim and_then]; auto;
  destruct (b_category body); cbn [optional_trim and_then]; auto;
  destruct (b_budget body); cbn [optional_trim and_then]; eauto.
Qed.

End AppFacts.

Import ServerApp AppFacts.

(** X8.  The query of [buildEnhancedQuery] always begins with the fixed
    opening and the course, always ends with the fixed block of
    instructions, and holds, as it was given, every field that is there and
    not empty. *)
Theorem query_carries_profile (p : Profile) :
  (exists middle,
     buildEnhancedQuery p = opening ++ course p ++ middle ++ request_block)
  /\ Forall (fun x => match given x with
                      | Some s => Spec.infix s (buildEnhancedQuery p)
                      | None => True
                      end)
            [Some (collegeName p); location p; category p; budget p; gpa p].
Proof.
  split.
  - exists (lit " students in India"
            ++ clause (lit " studying at ") (Some (collegeName p)) []
            ++ clause (lit " in ") (location p) (lit " state/region")
            ++ clause (lit ". Focus specifically on ") (category p)
                      (lit " scholarships")
            ++ clause (lit " with funding amount in range ") (budget p) []
            ++ clause (lit ". Student has academic performance of ") (gpa p) []).
    unfold buildEnhancedQuery. cbv zeta. rewrite <- !app_assoc. reflexivity.
  - repeat constructor;
      match goal with
      | |- match given ?x with _ => _ end =>
        destruct (given x) as [s|] eqn:G; [|exact I]
      end;
      unfold buildEnhancedQuery; cbv zeta; unfold clause at 1 2 3 4 5;
      rewrite G; rewrite <- !app_assoc;
      repeat first [apply infix_here | apply infix_skip].
Qed.

(** X9.  A request whose college name is missing, falsy or made of white
    space only is answered with 400 and "College name is required"; one
    whose college name is filled in and whose course is not, with 400 and
    "Course is required"; in both cases whatever the key and the completion
    service are. *)
Theorem missing_required_field_is_400 (URL_parses : jsstring -> bool)
  (api_key : option jsstring) (api : jsstring -> settled) (body : Body) :
  (missing (b_collegeName body) = true ->
   search_scholarships URL_parses api_key api body
   = Failure 400 (lit "College name is required"))
  /\ (filled (b_collegeName body) = true ->
      missing (b_course body) = true ->
      search_scholarships URL_parses api_key api body
      = Failure 400 (lit "Course is required")).
Proof.
  unfold search_scholarships, try_search. split.
  - intros H. rewrite (blank_missing _ H). reflexivity.
  - intros Hc Ho. rewrite (blank_filled _ Hc). cbn [and_then].
    rewrite (blank_missing _ Ho). reflexivity.
Qed.

Lemma missing_required_field_is_400_witness :
  search_scholarships http_host_ok None (fun _ => Fulfilled 200 VNull)
    {| b_collegeName := VString (lit "   "); b_course := VString (lit "B.Tech");
       b_location := VUndefined; b_gpa := VUndefined;
       b_category := VUndefined; b_budget := VUndefined |}
  = Failure 400 (lit "College name is required").
Proof.
  apply (proj1 (missing_required_field_is_400 http_host_ok None
                  (fun _ => Fulfilled 200 VNull) _)).
  reflexivity.
Defined.

(** X10.  A reply of [search_scholarships] has one of the codes 200, 400,
    408, 429, 500.  It is a success only when both required fields are
    filled in, the key is configured, and the service answered with status
    200 and a truthy content; its scholarships are then what
    [parseScholarshipResponse] makes of that content, its total is their
    number, at most 8, and at least 1 when the content is a string. *)
Theorem reply_shape (URL_parses : jsstring -> bool)
  (api_key : option jsstring) (api : jsstring -> settled) (body : Body) :
  known_status (status_of (search_scholarships URL_parses api_key api body))
  = true
  /\ match search_scholarships URL_parses api_key api body with
     | Success l n =>
       n = List.length l /\ n <= 8
       /\ filled (b_collegeName body) = true
       /\ filled (b_course body) = true
       /\ (exists k, api_key = Some k /\ k <> [])
       /\ exists p content,
            profile body = Ok p
            /\ api (buildEnhancedQuery p) = Fulfilled 200 content
            /\ falsy content = false
            /\ l = Server.parseScholarshipResponse URL_parses content
            /\ (Spec.is_string content = false \/ 1 <= n)
     | Failure _ _ => True
     end.
Proof.
  unfold search_scholarships, try_search.
  destruct (blank_cases (b_collegeName body)) as [[-> _]|[[-> Fc]|[-> _]]];
    cbn [and_then]; try (split; [reflexivity|exact I]).
  destruct (blank_cases (b_course body)) as [[-> _]|[[-> Fo]|[-> _]]];
    cbn [and_then]; try (split; [reflexivity|exact I]).
  destruct (truthy (match api_key with Some k => k | None => [] end)) eqn:K;
    cbn [negb]; [|split; [reflexivity|exact I]].
  destruct (profile_filled body Fc Fo) as [->|(p & ->)]; cbn [and_then];
    [split; [reflexivity|exact I]|].
  destruct (api (buildEnhancedQuery p)) as [st content|e] eqn:A.
  - destruct (Nat.eqb st 200) eqn:S; cbn [negb]; [|split; [reflexivity|exact I]].
    apply Nat.eqb_eq in S. subst st.
    destruct (falsy content) eqn:F; [split; [reflexivity|exact I]|].
    cbv zeta. split; [reflexivity|].
    split; [reflexivity|]. split; [apply parse_length_le|].
    split; [exact Fc|]. split; [exact Fo|]. split.
    + destruct api_key as [k|]; [|discriminate]. exists k. split; [reflexivity|].
      apply truthy_nonempty. exact K.
    + exists p, content. repeat split; auto.
      destruct content; try (left; reflexivity). right.
      rewrite Orchestrator.rich_parse.
      apply Orchestrator.firstn_8_bounds, Orchestrator.or_fallback_nonempty.
      discriminate.
  - split; [apply on_error_known|].
    unfold on_error.
    destruct (_ || _); [exact I|].
    destruct (response_is e 401); [exact I|].
    destruct (response_is e 429); [exact I|].
    destruct (response_is e 400); exact I.
Qed.

Lemma upstream_setup (URL_parses : jsstring -> bool) (k : jsstring)
  (api : jsstring -> settled) (body : Body) (p : Profile) :
  filled (b_collegeName body) = true -> filled (b_course body) = true ->
  k <> [] -> profile body = Ok p ->
  search_scholarships URL_parses (Some k) api body
  = match api (buildEnhancedQuery p) with
    | Rejected e => on_error e
    | Fulfilled status content =>
      if negb (Nat.eqb status 200) then on_error plain_error
      else if falsy content then on_error plain_error
      else Success (Server.parseScholarshipResponse URL_parses content)
             (List.length (Server.parseScholarshipResponse URL_parses content))
    end.
Proof.
  intros Fc Fo K P. unfold search_scholarships, try_search.
  rewrite (blank_filled _ Fc). cbn [and_then].
  rewrite (blank_filled _ Fo). cbn [and_then].
  apply StringFacts.truthy_nonempty in K. rewrite K. cbn [negb].
  rewrite P. cbn [and_then].
  destruct (api (buildEnhancedQuery p)) as [st c|e]; [|reflexivity].
  destruct (negb (Nat.eqb st 200)); [reflexivity|].
  destruct (falsy c); reflexivity.
Qed.

(** X11.  When the completion service answers with a status other than 200,
    or with a content that is missing or falsy, the reply is 500 with the
    general message, whatever that status is: 401 and 429 too, when the
    call is fulfilled with them. *)
Theorem fulfilled_without_answer_is_500 (URL_parses : jsstring -> bool)
  (k : jsstring) (api : jsstring -> settled) (body : Body) (p : Profile)
  (status : nat) (content : value) :
  filled (b_collegeName body) = true -> filled (b_course body) = true ->
  k <> [] -> profile body = Ok p ->
  api (buildEnhancedQuery p) = Fulfilled status content ->
  status <> 200 \/ falsy content = true ->
  search_scholarships URL_parses (Some k) api body
  = Failure 500 (lit "Failed to search scholarships. Please try again.").
Proof.
  intros Fc Fo K P A H. rewrite (upstream_setup _ _ _ _ p Fc Fo K P), A.
  destruct H as [H|H].
  - apply Nat.eqb_neq in H. rewrite H. reflexivity.
  - rewrite H. destruct (negb (Nat.eqb status 200)); reflexivity.
Qed.

Lemma fulfilled_without_answer_is_500_witness :
  search_scholarships http_host_ok (Some (lit "key"))
    (fun _ => Fulfilled 429 (VString Spec.twelve))
    {| b_collegeName := VString (lit "IIT Delhi");
       b_course := VString (lit "B.Tech");
       b_location := VUndefined; b_gpa := VUndefined;
       b_category := VUndefined; b_budget := VUndefined |}
  = Failure 500 (lit "Failed to search scholarships. Please try again.").
Proof.
  apply (fulfilled_without_answer_is_500 http_host_ok (lit "key")
           (fun _ => Fulfilled 429 (VString Spec.twelve)) _
           {| collegeName := lit "IIT Delhi"; course := lit "B.Tech";
              location := None; gpa := None; category := None;
              budget := None |}
           429 (VString Spec.twelve));
    try reflexivity; try discriminate.
  left. discriminate.
Defined.

(** X12.  A required field that is truthy and not a string (a number, the
    boolean true) makes [trim] throw inside the [try] block: the reply is
    500 with the general message, not 400. *)
Theorem non_string_field_is_500 (URL_parses : jsstring -> bool)
  (api_key : option jsstring) (api : jsstring -> settled) (body : Body) :
  (falsy (b_collegeName body) = false ->
   Spec.is_string (b_collegeName body) = false ->
   search_scholarships URL_parses api_key api body
   = Failure 500 (lit "Failed to search scholarships. Please try again."))
  /\ (filled (b_collegeName body) = true ->
      falsy (b_course body) = false ->
      Spec.is_string (b_course body) = false ->
      search_scholarships URL_parses api_key api body
      = Failure 500 (lit "Failed to search scholarships. Please try again.")).
Proof.
  unfold search_scholarships, try_search. split.
  - intros F S. unfold blank. rewrite F.
    destruct (b_collegeName body); try discriminate; reflexivity.
  - intros Fc F S. rewrite (blank_filled _ Fc). cbn [and_then].
    unfold blank. rewrite F.
    destruct (b_course body); try discriminate; reflexivity.
Qed.

Lemma non_string_field_is_500_witness :
  search_scholarships http_host_ok None (fun _ => Fulfilled 200 VNull)
    {| b_collegeName := VNumber 7; b_course := VString (lit "B.Tech");
       b_location := VUndefined; b_gpa := VUndefined;
       b_category := VUndefined; b_budget := VUndefined |}
  = Failure 500 (lit "Failed to search scholarships. Please try again.").
Proof.
  apply (proj1 (non_string_field_is_500 http_host_ok None
                  (fun _ => Fulfilled 200 VNull) _));
    reflexivity.
Defined.



(** X14.  In server.js a text in which no segment of at least 100 code
    units (after trimming) bears one of the five keywords gives the Fallback
    Catalog: the name of a candidate is cut out of its segment, or is
    "Educational Opportunity", and neither passes the validator. *)
Theorem keywordless_text_yields_catalog (URL_parses : jsstring -> bool)
  (text : jsstring) :
  Forall (fun s => List.length (trim s) < 100
                   \/ Spec.bearsb Spec.keywords (trim s) = false)
         (split Server.splitter text) ->
  Server.parseScholarshipResponse URL_parses (VString text) = Server.fallback.
Proof. apply ValidatorFacts.rich_fallback_without_keyword. Qed.

Lemma keywordless_text_yields_catalog_witness :
  Server.parseScholarshipResponse http_host_ok (VString Spec.blank)
  = Server.fallback.
Proof.
  apply (keywordless_text_yields_catalog http_host_ok Spec.blank).
  vm_compute. constructor; [right; reflexivity|constructor].
Defined.

(** X15.  Every record that [parseScholarshipResponse] of server.js returns,
    parsed or from the catalog, has an amount that is not empty, an
    eligibility text longer than 20 and at most 150 code units, and a
    description of at most 401 code units that ends with a full stop. *)
Theorem surfaced_fields_bounded (URL_parses : jsstring -> bool) (v : value) :
  Forall (fun r =>
            amount r <> []
            /\ 20 < List.length (eligibility r) <= 150
            /\ 1 <= List.length (description r) <= 401
            /\ last (description r) 0%N = cu ".")
         (Server.parseScholarshipResponse URL_parses v).
Proof.
  destruct v as [| |b|n|s]; try constructor.
  rewrite Orchestrator.rich_parse.
  apply ValidatorFacts.Forall_firstn, ValidatorFacts.Forall_or_fallback.
  - apply ValidatorFacts.Forall_keep. intros x r H.
    apply ValidatorFacts.rich_candidate_accepted in H. destruct H as (-> & _).
    cbn [amount eligibility description Server.extractScholarshipInfo].
    split; [|split; [apply rich_eligibility_bounds|apply rich_description_bounds]].
    apply (amount_from_match Server.amount_patterns (trim x) (lit "Amount varies"));
      [vm_compute; reflexivity|discriminate].
  - unfold Server.fallback.
    repeat (constructor;
            [split; [discriminate|vm_compute; repeat split; repeat constructor]|]).
    constructor.
Qed.

Module MoreFacts.

Import Spec StringFacts ExtractorFacts FieldFacts ServerApp AppFacts.

Lemma or_else_infix re text m :
  exec re text = Some m -> infix (or_else (mgroup 1 m) (m0 m)) text.
Proof.
  intros E. unfold or_else.
  assert (H0 : infix (m0 m) text).
  { unfold m0. rewrite (exec_input re text m E). apply infix_substring. }
  destruct (mgroup 1 m) as [g|] eqn:G; [|exact H0].
  destruct (truthy g); [|exact H0]. eapply mgroup_infix; eauto.
Qed.

Lemma rich_eligibility_source text :
  Server.extractEligibility text
  = lit "Check official website for detailed eligibility criteria"
  \/ infix (Server.extractEligibility text) text.
Proof.
  unfold Server.extractEligibility.
  match goal with
  | |- context [for_of_return ?ps ?body ?d] =>
    destruct (for_of_return_cases ps body d)
      as [[H _]|(k & p & r & N & H & -> & _)]
  end.
  - left. exact H.
  - right. destruct (exec p text) as [m|] eqn:E; [|discriminate].
    destruct (mgroup 1 m) as [g|] eqn:G; [|discriminate].
    destruct (truthy g); [|discriminate]. cbv zeta in H.
    destruct (20 <? List.length (trim g)); [|discriminate].
    inversion H; subst r.
    eapply infix_trans; [apply infix_trim|]. eapply mgroup_infix; eauto.
Qed.

Lemma rich_deadline_source text :
  Server.extractDeadline text
  = lit "Check official website for application deadlines"
  \/ infix (Server.extractDeadline text) text.
Proof.
  unfold Server.extractDeadline.
  match goal with
  | |- context [for_of_return ?ps ?body ?d] =>
    destruct (for_of_return_cases ps body d)
      as [[H _]|(k & p & r & N & H & -> & _)]
  end.
  - left. exact H.
  - right. destruct (exec p text) as [m|] eqn:E; [|discriminate].
    inversion H; subst r.
    eapply infix_trans; [apply infix_trim|]. eapply or_else_infix; eauto.
Qed.

Lemma simple_fallback_fields :
  Forall (fun r =>
            amount r <> []
            /\ List.length (eligibility r) <= 108
            /\ 1 <= List.length (description r) <= 150
            /\ last (description r) 0%N = cu ".")
         Simple.fallback.
Proof.
  unfold Simple.fallback.
  repeat (constructor;
          [split; [discriminate|vm_compute; repeat split; repeat constructor]|]).
  constructor.
Qed.

Lemma given_unblank_trim v o :
  optional_trim v = Ok o ->
  exists o', optional_trim (unblank v) = Ok o' /\ given o' = given o.
Proof.
  destruct v as [| |b|n|s]; simpl; intros H; try discriminate;
    inversion H; subst; try (eexists; split; reflexivity).
  destruct (all_space s) eqn:A.
  - exists None. split; [reflexivity|]. unfold given.
    rewrite <- trim_empty_iff in A.
    destruct (trim s); [reflexivity|discriminate].
  - eexists. split; reflexivity.
Qed.

Lemma unblank_raise v :
  optional_trim v = Raise plain_error ->
  optional_trim (unblank v) = Raise plain_error.
Proof. destruct v; simpl; try discriminate; auto. Qed.

Lemma optional_trim_cases v :
  optional_trim v = Raise plain_error \/ exists o, optional_trim v = Ok o.
Proof. destruct v; simpl; eauto. Qed.

Lemma query_given (c o : jsstring) l g a b l' g' a' b' :
  given l = given l' -> given g = given g' -> given a = given a' ->
  given b = given b' ->
  buildEnhancedQuery {| collegeName := c; course := o; location := l;
                        gpa := g; category := a; budget := b |}
  = buildEnhancedQuery {| collegeName := c; course := o; location := l';
                          gpa := g'; category := a'; budget := b' |}.
Proof.
  intros Hl Hg Ha Hb. unfold buildEnhancedQuery, clause.
  cbn [collegeName course location gpa category budget].
  rewrite Hl, Hg, Ha, Hb. reflexivity.
Qed.

End MoreFacts.

Import MoreFacts.

(** X16.  Every record that [parseScholarships] of the simpler variant
    returns, parsed or from the catalog, has an amount that is not empty,
    an eligibility text of at most 108 code units, and a description of at
    most 150 code units that ends with a full stop. *)
Theorem surfaced_simple_fields_bounded (v : value) :
  Forall (fun r =>
            amount r <> []
            /\ List.length (eligibility r) <= 108
            /\ 1 <= List.length (description r) <= 150
            /\ last (description r) 0%N = cu ".")
         (Simple.parseScholarships v).
Proof.
  destruct v as [| |b|n|s]; try constructor.
  rewrite Orchestrator.simple_parse.
  apply ValidatorFacts.Forall_firstn, ValidatorFacts.Forall_or_fallback.
  - apply ValidatorFacts.Forall_keep. intros x r H.
    apply ValidatorFacts.simple_candidate_accepted in H. destruct H as (H & _).
    apply PipelineFacts.simple_build_fields in H.
    destruct H as (_ & -> & He & ->).
    split; [|split; [|apply simple_description_bounds]].
    + apply (amount_from_match Simple.amount_patterns x (lit "Amount varies"));
        [vm_compute; reflexivity|discriminate].
    + destruct (simple_eligibility_bounds x) as (e & E & L).
      rewrite E in He. inversion He; subst. exact L.
  - apply simple_fallback_fields.
Qed.

(** X17.  The name, the amount, the eligibility and the deadline that
    [extractScholarshipInfo] of server.js puts in a record are each the
    default of the field or a piece of the segment, as it stands there:
    the extractors make up no text. *)
Theorem fields_come_from_segment (URL_parses : jsstring -> bool)
  (text : jsstring) :
  (name (Server.extractScholarshipInfo URL_parses text)
   = lit "Educational Opportunity"
   \/ Spec.infix (name (Server.extractScholarshipInfo URL_parses text)) text)
  /\ (amount (Server.extractScholarshipInfo URL_parses text)
      = lit "Amount varies"
      \/ Spec.infix (amount (Server.extractScholarshipInfo URL_parses text)) text)
  /\ (eligibility (Server.extractScholarshipInfo URL_parses text)
      = lit "Check official website for detailed eligibility criteria"
      \/ Spec.infix (eligibility (Server.extractScholarshipInfo URL_parses text))
                    text)
  /\ (deadline (Server.extractScholarshipInfo URL_parses text)
      = lit "Check official website for application deadlines"
      \/ Spec.infix (deadline (Server.extractScholarshipInfo URL_parses text))
                    text).
Proof.
  cbn [name amount eligibility deadline Server.extractScholarshipInfo].
  split; [apply ExtractorFacts.extractScholarshipName_source|].
  split; [|split; [apply rich_eligibility_source|apply rich_deadline_source]].
  apply (amount_from_match Server.amount_patterns text (lit "Amount varies"));
    [vm_compute; reflexivity|discriminate].
Qed.

(** X18.  An optional field of the request (location, gpa, category,
    budget) that is [null], empty or made of white space only counts as
    absent for the search: the query sent to the service is the one of the
    request without the field (or the same error is thrown), and so the
    status code, the message, the scholarships and the total of the reply
    are the same.  (The reply also echoes the fields of the request as they
    came; that part is not in [reply] and does differ.) *)
Theorem blank_optional_field_same_search (URL_parses : jsstring -> bool)
  (api_key : option jsstring) (api : jsstring -> settled) (body : Body) :
  match profile body with
  | Ok p =>
    exists p', profile (unblank_optional body) = Ok p'
               /\ buildEnhancedQuery p' = buildEnhancedQuery p
  | Raise e => profile (unblank_optional body) = Raise e
  end
  /\ search_scholarships URL_parses api_key api (unblank_optional body)
     = search_scholarships URL_parses api_key api body.
Proof.
  assert (P : match profile body with
              | Ok p => exists p', profile (unblank_optional body) = Ok p'
                                   /\ buildEnhancedQuery p' = buildEnhancedQuery p
              | Raise e => profile (unblank_optional body) = Raise e
              end).
  { unfold profile. cbn [unblank_optional b_collegeName b_course b_location
                         b_gpa b_category b_budget].
    destruct (method_trim (b_collegeName body)) as [cn|e]; cbn [and_then]; auto.
    destruct (method_trim (b_course body)) as [co|e]; cbn [and_then]; auto.
    destruct (optional_trim_cases (b_location body)) as [R|(lo & El)].
    { rewrite R, (unblank_raise _ R). reflexivity. }
    destruct (given_unblank_trim _ _ El) as (lo' & El' & Gl).
    rewrite El, El'. cbn [and_then].
    destruct (optional_trim_cases (b_gpa body)) as [R|(gp & Eg)].
    { rewrite R, (unblank_raise _ R). reflexivity. }
    destruct (given_unblank_trim _ _ Eg) as (gp' & Eg' & Gg).
    rewrite Eg, Eg'. cbn [and_then].
    destruct (optional_trim_cases (b_category body)) as [R|(ca & Ec)].
    { rewrite R, (unblank_raise _ R). reflexivity. }
    destruct (given_unblank_trim _ _ Ec) as (ca' & Ec' & Gc).
    rewrite Ec, Ec'. cbn [and_then].
    destruct (optional_trim_cases (b_budget body)) as [R|(bu & Eb)].
    { rewrite R, (unblank_raise _ R). reflexivity. }
    destruct (given_unblank_trim _ _ Eb) as (bu' & Eb' & Gb).
    rewrite Eb, Eb'. cbn [and_then].
    eexists. split; [reflexivity|]. apply query_given; assumption. }
  split; [exact P|].
  unfold search_scholarships, try_search.
  cbn [unblank_optional b_collegeName b_course].
  destruct (blank (b_collegeName body)) as [[|]|e]; cbn [and_then]; try reflexivity.
  destruct (blank (b_course body)) as [[|]|e]; cbn [and_then]; try reflexivity.
  destruct (negb (truthy _)); [reflexivity|].
  destruct (profile body) as [p|e].
  - destruct P as (p' & -> & Q). cbn [and_then]. rewrite Q. reflexivity.
  - rewrite P. reflexivity.
Qed.
